(** * legacy-code-refactor-ai: the analysis and diagram pipeline of [src/main.py]

    A shallow embedding of [CodeAnalyzer.analyze], [RefactorSuggester.suggest],
    [ArchitectureVisualizer] and [main].  Python values are modelled as the
    code has them: insertion-ordered dicts as association lists with unique
    keys, exceptions as an inductive type with the [Exception] /
    [BaseException] split, and the side effects (printing, reading the file,
    parsing, asking the collaborator, rendering) as an event trace threaded
    through a state-and-error monad.  Everything the script obtains from the
    outside (file system, tree-sitter, the language model, [json.loads],
    Graphviz) is a field of the record [Env]. *)

From Stdlib Require Import String Ascii List ZArith Bool Arith Lia.
From Stdlib Require Import Floats.PrimFloat.
Import ListNotations.
Open Scope list_scope.
Open Scope string_scope.

(* ================================================================== *)
(** ** Python dictionaries                                             *)
(* ================================================================== *)

(** A [dict] with string keys.  Python dicts iterate in insertion order and
    assigning to a key that is present replaces the value in place, which is
    what [set] does. *)
Module PyDict.

Definition t (V : Type) : Type := list (string * V).

Definition empty {V : Type} : t V := [].

(** [d.get(k)] / [d[k]]: [None] stands for the missing key. *)
Fixpoint get {V : Type} (k : string) (d : t V) : option V :=
  match d with
  | [] => None
  | (k', v) :: d' => if String.eqb k k' then Some v else get k d'
  end.

(** [k in d] *)
Definition contains {V : Type} (k : string) (d : t V) : bool :=
  match get k d with Some _ => true | None => false end.

(** [d[k] = v] *)
Fixpoint set {V : Type} (k : string) (v : V) (d : t V) : t V :=
  match d with
  | [] => [(k, v)]
  | (k', v') :: d' =>
      if String.eqb k k' then (k, v) :: d' else (k', v') :: set k v d'
  end.

(** [d.keys()] and [d.items()], in iteration order. *)
Definition keys {V : Type} (d : t V) : list string := map fst d.
Definition items {V : Type} (d : t V) : list (string * V) := d.

(** The representation invariant of a dict: no key occurs twice. *)
Definition wf {V : Type} (d : t V) : Prop := NoDup (keys d).

End PyDict.

(* ================================================================== *)
(** ** Python strings                                                  *)
(* ================================================================== *)

(** Strings are sequences of code points below 256. *)

(** The double quote character, and a string in double quotes. *)
Definition dquote : string := String "034"%char EmptyString.
Definition quoted (s : string) : string := dquote ++ s ++ dquote.

(** [c.isspace()] for a code point below 256: TAB..CR, FS..US, SPACE, NEL
    and NBSP. *)
Definition isspace (c : ascii) : bool :=
  let n := nat_of_ascii c in
  (((9 <=? n) && (n <=? 13)) || ((28 <=? n) && (n <=? 32))
   || (n =? 133) || (n =? 160))%nat.

(** [s.lstrip()] *)
Fixpoint lstrip (s : string) : string :=
  match s with
  | EmptyString => EmptyString
  | String c s' => if isspace c then lstrip s' else s
  end.

(** [s.rstrip()] *)
Fixpoint rstrip (s : string) : string :=
  match s with
  | EmptyString => EmptyString
  | String c s' =>
      match rstrip s' with
      | EmptyString => if isspace c then EmptyString else String c EmptyString
      | r => String c r
      end
  end.

(** [s.strip()] *)
Definition strip (s : string) : string := rstrip (lstrip s).

(** [s.replace(old, new)] for a non-empty [old]: occurrences are replaced
    from left to right without overlap; [skip] counts the characters of the
    occurrence just replaced that are still to be passed over. *)
Fixpoint replace_from (old new s : string) (skip : nat) : string :=
  match s with
  | EmptyString => EmptyString
  | String c s' =>
      match skip with
      | S k => replace_from old new s' k
      | O =>
          if String.prefix old s
          then new ++ replace_from old new s' (String.length old - 1)
          else String c (replace_from old new s' 0)
      end
  end.

(** [s.replace("", new)]: [new] goes before every character and at the
    end. *)
Fixpoint replace_empty (new s : string) : string :=
  match s with
  | EmptyString => new
  | String c s' => new ++ String c (replace_empty new s')
  end.

Definition replace (old new s : string) : string :=
  match old with
  | EmptyString => replace_empty new s
  | _ => replace_from old new s 0
  end.

(** [x in xs] for a list of strings. *)
Definition str_in (x : string) (xs : list string) : bool :=
  existsb (String.eqb x) xs.

(* ================================================================== *)
(** ** Values decoded from JSON                                        *)
(* ================================================================== *)

#[local] Set Warnings "-register-all".

(** What [json.loads] returns: [None], [bool], [int], [float], [str],
    [list] and [dict] (keys unique, in order of first appearance). *)
Inductive json : Type :=
| JNull
| JBool (b : bool)
| JInt (n : Z)
| JFloat (x : float)
| JString (s : string)
| JArray (xs : list json)
| JObject (fields : list (string * json)).

(** Python truth value of a decoded document: [None], [False], zero, and
    the empty string, list and dict are false. *)
Definition truthy (v : json) : bool :=
  match v with
  | JNull => false
  | JBool b => b
  | JInt n => negb (Z.eqb n 0)
  | JFloat x => negb (PrimFloat.eqb x 0%float)
  | JString s => negb (String.eqb s "")
  | JArray xs => match xs with [] => false | _ => true end
  | JObject fs => match fs with [] => false | _ => true end
  end.

(** [v.get(key, default)] on a decoded document that is a dict. *)
Definition fields_get (key : string) (default : json)
  (fs : list (string * json)) : json :=
  match PyDict.get key fs with Some v => v | None => default end.

(* ================================================================== *)
(** ** The data model of the analysis                                  *)
(* ================================================================== *)

(** A capture [(node, name)] of a tree-sitter query, with the node reduced
    to what the code reads of it, [node.text.decode('utf8')]. *)
Record Capture : Type := { text : string; tag : string }.

(** An entry [{"calls": [...]}] of [structure["functions"]].  The entry is
    a dict, so the key ["calls"] may be missing: [None]. *)
Record FunctionEntry : Type := { calls : option (list string) }.

(** Entries of [structure["classes"]]; no query fills that dict. *)
Definition ClassEntry : Type := unit.

(** The dict [structure] built by [analyze]. *)
Record CodeStructure : Type := {
  functions : PyDict.t FunctionEntry;
  classes : PyDict.t ClassEntry;
  global_calls : list string
}.

(** The tree of a source text.  Parsing is a function of the text, so the
    tree is identified by the text it was parsed from. *)
Inductive SyntaxTree : Type := TreeOf (source : string).

(* ================================================================== *)
(** ** Graphviz objects                                                *)
(* ================================================================== *)

(** A line of [Digraph.body].  The [graphviz] package keeps the body as a
    list of DOT lines and [attr], [node] and [edge] each append one; the
    line is kept here by what it declares rather than by its quoted text. *)
Inductive stmt : Type :=
| AttrStmt (kw : option string) (attrs : list (string * string))
| NodeStmt (name label : string)
| EdgeStmt (tail head : string).

Record Digraph : Type := {
  graph_name : string;
  comment : string;
  body : list stmt
}.

(** What [_render_graph] is given: a [graphviz.Digraph] or a
    [graphviz.Source] wrapping the value it was built from. *)
Inductive graph : Type :=
| DigraphObj (d : Digraph)
| SourceObj (source : json).

(** [graphviz.Digraph(name, comment=comment)] *)
Definition new_Digraph (name cmt : string) : Digraph :=
  {| graph_name := name; comment := cmt; body := [] |}.

Definition append_stmt (s : stmt) (d : Digraph) : Digraph :=
  {| graph_name := graph_name d; comment := comment d; body := (body d ++ [s])%list |}.

(** [dot.attr(kw, **attrs)]: with attributes given, one attribute statement
    is appended to the body; with none, nothing happens. *)
Definition attr (kw : option string) (attrs : list (string * string))
  (d : Digraph) : Digraph :=
  match attrs with
  | [] => d
  | _ => append_stmt (AttrStmt kw attrs) d
  end.

(** [dot.node(name, label)] and [dot.edge(tail, head)] *)
Definition node (name label : string) (d : Digraph) : Digraph :=
  append_stmt (NodeStmt name label) d.
Definition edge (tail head : string) (d : Digraph) : Digraph :=
  append_stmt (EdgeStmt tail head) d.

(* ================================================================== *)
(** ** Exceptions, effects and the monad                               *)
(* ================================================================== *)

Inductive exn : Type :=
| FileNotFoundError (path : string)
| PermissionError (path : string)
| IsADirectoryError (path : string)
| UnicodeDecodeError
| KeyError (key : string)
| AttributeError (msg : string)
| JSONDecodeError (msg : string)
| RecursionError
| ExecutableNotFound
| CalledProcessError (stderr : string)
| OtherException (cls msg : string)
| KeyboardInterrupt
| SystemExit (code : Z).

(** [isinstance(e, Exception)]: [SystemExit] and [KeyboardInterrupt] derive
    from [BaseException] only. *)
Definition is_Exception (e : exn) : bool :=
  match e with
  | SystemExit _ | KeyboardInterrupt => false
  | _ => true
  end.

Definition is_FileNotFoundError (e : exn) : bool :=
  match e with FileNotFoundError _ => true | _ => false end.

Definition is_JSONDecodeError (e : exn) : bool :=
  match e with JSONDecodeError _ => true | _ => false end.

Definition is_ExecutableNotFound (e : exn) : bool :=
  match e with ExecutableNotFound => true | _ => false end.

(** A call either returns or raises. *)
Inductive result (A : Type) : Type :=
| Ok (a : A)
| Raise (e : exn).
Arguments Ok {A} a.
Arguments Raise {A} e.

(** A piece of a printed line: literal text or an interpolated value. *)
Inductive fragment : Type :=
| Lit (s : string)
| Val (v : json)
| Exc (e : exn)
| Dump (cs : CodeStructure).

(** What the run does to the outside, in order. *)
Inductive event : Type :=
| EvPrint (line : list fragment)
| EvOpen (path : string)
| EvParse (code : string)
| EvMkdir (dir : string)
| EvInvoke (cs : CodeStructure)
| EvRender (g : graph) (output_path : string).

Definition trace : Type := list event.

(** Computations: the trace so far goes in, the outcome and the extended
    trace come out. *)
Definition M (A : Type) : Type := trace -> result A * trace.

Definition ret {A : Type} (a : A) : M A := fun tr => (Ok a, tr).

Definition bind {A B : Type} (m : M A) (k : A -> M B) : M B :=
  fun tr =>
    match m tr with
    | (Ok a, tr') => k a tr'
    | (Raise e, tr') => (Raise e, tr')
    end.

Definition raise {A : Type} (e : exn) : M A := fun tr => (Raise e, tr).

Definition emit (ev : event) : M unit := fun tr => (Ok tt, (tr ++ [ev])%list).

(** The outcome of an outside call enters the computation. *)
Definition lift {A : Type} (r : result A) : M A := fun tr => (r, tr).

(** [try: m  except ...: ...]: the handler says which exceptions its
    clauses take ([None]: none of them, the exception goes on). *)
Definition try_except {A : Type} (m : M A) (handler : exn -> option (M A))
  : M A :=
  fun tr =>
    match m tr with
    | (Ok a, tr') => (Ok a, tr')
    | (Raise e, tr') =>
        match handler e with
        | Some h => h tr'
        | None => (Raise e, tr')
        end
    end.

Notation "x <- m ;; k" := (bind m (fun x => k))
  (at level 61, m at next level, right associativity).
Notation "m ;;; k" := (bind m (fun _ => k))
  (at level 61, right associativity).

Definition print (line : list fragment) : M unit := emit (EvPrint line).

(** [sys.exit(code)] *)
Definition sys_exit {A : Type} (code : Z) : M A := raise (SystemExit code).

(** [for x in xs: f(x)] *)
Fixpoint for_each {A : Type} (f : A -> M unit) (xs : list A) : M unit :=
  match xs with
  | [] => ret tt
  | x :: xs' => f x ;;; for_each f xs'
  end.

(** The result-only bind, for loops that can raise but have no effect. *)
Definition rbind {A B : Type} (r : result A) (k : A -> result B) : result B :=
  match r with Ok a => k a | Raise e => Raise e end.

Fixpoint fold_result {A B : Type} (f : A -> B -> result A) (xs : list B)
  (a : A) : result A :=
  match xs with
  | [] => Ok a
  | x :: xs' => rbind (f a x) (fold_result f xs')
  end.

(** Everything the script gets from outside its own code. *)
Record Env : Type := {
  (** [open(path, 'r', encoding='utf-8')] and [f.read()] *)
  read_text : string -> result string;
  (** [get_language(name)] of tree_sitter_languages *)
  get_language : string -> result unit;
  (** [language.query(query_string).captures(tree.root_node)] *)
  captures : SyntaxTree -> string -> result (list Capture);
  (** [ChatOllama(model=model_name)] *)
  ChatOllama : string -> result unit;
  (** [chain.invoke] on the serialised structure, for the model named *)
  chain_invoke : string -> CodeStructure -> result string;
  (** [json.loads] *)
  json_loads : string -> result json;
  (** [Path(dir).mkdir(exist_ok=True)] *)
  mkdir : string -> result unit;
  (** [graph.render(output_path, format='png', cleanup=True)] *)
  render : graph -> string -> result unit;
  (** [Path(file_path).stem] *)
  stem : string -> string
}.

(* ================================================================== *)
(** ** CodeAnalyzer                                                    *)
(* ================================================================== *)

Definition nl : string := String "010"%char EmptyString.

Definition func_query : string :=
  "(function_definition name: (identifier) @function.name)".

Definition call_query : string := "
        (function_definition
            name: (identifier) @function.name
            body: (_
                (call
                    function: (attribute attribute: (identifier) @method.name) 
                ) @call
                |
                (call 
                    function: (identifier) @function.call
                ) @call
            )
        )
        ".

(** [CodeAnalyzer.__init__]: a grammar that cannot be loaded ends the
    process. *)
Definition CodeAnalyzer_init (env : Env) : M unit :=
  try_except
    (lift (get_language env "python"))
    (fun e =>
       if is_Exception e then
         Some (print [Lit "Error getting tree-sitter language: "; Exc e] ;;;
               print [Lit "Please ensure tree-sitter grammars are correctly installed."] ;;;
               sys_exit 1)
       else None).

(** The first loop of [analyze]: every [function.name] capture of the
    definition query sets [structure["functions"][func_name]] to a fresh
    [{"calls": []}]. *)
Definition register_function (fs : PyDict.t FunctionEntry) (c : Capture)
  : PyDict.t FunctionEntry :=
  if tag c =? "function.name"
  then PyDict.set (text c) {| calls := Some [] |} fs
  else fs.

Definition register_functions (caps : list Capture)
  (fs : PyDict.t FunctionEntry) : PyDict.t FunctionEntry :=
  fold_left register_function caps fs.

(** Truth value of [current_func]: [None] and the empty string are false. *)
Definition name_truthy (current_func : option string) : bool :=
  match current_func with
  | Some s => negb (s =? "")
  | None => false
  end.

(** [structure["functions"][func]["calls"].append(call_name)]: both
    subscripts raise [KeyError] on a missing key; the list is extended in
    place, so the entry keeps its position in the dict. *)
Definition append_call (func call_name : string)
  (fs : PyDict.t FunctionEntry) : result (PyDict.t FunctionEntry) :=
  match PyDict.get func fs with
  | None => Raise (KeyError func)
  | Some entry =>
      match calls entry with
      | None => Raise (KeyError "calls")
      | Some cs => Ok (PyDict.set func {| calls := Some (cs ++ [call_name])%list |} fs)
      end
  end.

(** One iteration of the second loop of [analyze], on the pair of
    [current_func] and [structure["functions"]]. *)
Definition record_call (st : option string * PyDict.t FunctionEntry)
  (c : Capture) : result (option string * PyDict.t FunctionEntry) :=
  let '(current_func, fs) := st in
  if tag c =? "function.name" then Ok (Some (text c), fs)
  else if str_in (tag c) ["function.call"; "method.name"]
          && name_truthy current_func then
    let call_name := text c in
    match current_func with
    | Some cur =>
        if PyDict.contains cur fs
        then rbind (append_call cur call_name fs)
                   (fun fs' => Ok (current_func, fs'))
        else Ok st
    | None => Ok st
    end
  else Ok st.

Definition record_calls (caps : list Capture)
  (st : option string * PyDict.t FunctionEntry)
  : result (option string * PyDict.t FunctionEntry) :=
  fold_result record_call caps st.

(** The dict [analyze] builds from the captures of its two queries. *)
Definition build_structure (func_caps call_caps : list Capture)
  : result CodeStructure :=
  rbind (record_calls call_caps (None, register_functions func_caps PyDict.empty))
        (fun st => Ok {| functions := snd st;
                         classes := PyDict.empty;
                         global_calls := [] |}).

(** [CodeAnalyzer.analyze].  The [except FileNotFoundError] clause returns
    [None] from the method; every other error of [open] / [read] leaves it
    as an exception. *)
Definition analyze (env : Env) (file_path : string)
  : M (option CodeStructure) :=
  opened <- try_except
              (emit (EvOpen file_path) ;;;
               code <- lift (read_text env file_path) ;;
               ret (Some code))
              (fun e =>
                 if is_FileNotFoundError e then
                   Some (print [Lit "Error: File not found at "; Lit file_path] ;;;
                         ret None)
                 else None) ;;
  match opened with
  | None => ret None
  | Some code =>
      emit (EvParse code) ;;;
      let tree := TreeOf code in
      (* the two loops touch nothing but [structure]: they are gathered in
         [build_structure], after the two queries *)
      funcs <- lift (captures env tree func_query) ;;
      calls <- lift (captures env tree call_query) ;;
      structure <- lift (build_structure funcs calls) ;;
      ret (Some structure)
  end.

(* ================================================================== *)
(** ** RefactorSuggester                                               *)
(* ================================================================== *)

(** [RefactorSuggester.__init__] *)
Definition RefactorSuggester_init (env : Env) (model_name : string) : M unit :=
  try_except
    (lift (ChatOllama env model_name))
    (fun e =>
       if is_Exception e then
         Some (print [Lit "Error initializing Ollama model '"; Lit model_name;
                      Lit "': "; Exc e] ;;;
               print [Lit "Please ensure Ollama is running and the specified model is available ('ollama run llama3')."] ;;;
               sys_exit 1)
       else None).

(** [RefactorSuggester.suggest].  The method returns what [json.loads]
    returns, or [None] (here [JNull], the same Python object) after a
    [JSONDecodeError]. *)
Definition suggest (env : Env) (model_name : string)
  (code_structure : CodeStructure) : M json :=
  print [Lit (nl ++ "Asking the AI architect for refactoring suggestions...")] ;;;
  emit (EvInvoke code_structure) ;;;
  response <- lift (chain_invoke env model_name code_structure) ;;
  try_except
    (let clean_response := replace "" "" (replace "" "" (strip response)) in
     lift (json_loads env clean_response))
    (fun e =>
       if is_JSONDecodeError e then
         Some (print [Lit "Error: Could not decode the LLM's JSON response."] ;;;
               print [Lit "--- Raw LLM Output ---"] ;;;
               print [Lit response] ;;;
               print [Lit "-----------------------"] ;;;
               ret JNull)
       else None).

(* ================================================================== *)
(** ** ArchitectureVisualizer                                          *)
(* ================================================================== *)

(** [ArchitectureVisualizer.__init__]; the object is its [output_dir]. *)
Definition ArchitectureVisualizer_init (env : Env) (output_dir : string)
  : M string :=
  emit (EvMkdir output_dir) ;;;
  lift (mkdir env output_dir) ;;;
  ret output_dir.

(** [str(Path(a) / b)] on a POSIX system.  A path is its root (["/"],
    ["//"] for exactly two leading slashes, or none) and its parts: the
    pieces between slashes, with empty pieces and ["."] left out.  An
    absolute [b] replaces [a]; a path without root and parts is ["."]. *)
Definition path_root (p : string) : string :=
  match p with
  | String "/" (String "/" (String "/" _)) => "/"
  | String "/" (String "/" _) => "//"
  | String "/" _ => "/"
  | _ => ""
  end.

Definition is_part (piece : string) : bool :=
  negb (piece =? "") && negb (piece =? ".").

Fixpoint path_parts_from (p piece : string) : list string :=
  match p with
  | EmptyString => if is_part piece then [piece] else []
  | String c p' =>
      if Ascii.eqb c "/"%char
      then ((if is_part piece then [piece] else []) ++ path_parts_from p' "")%list
      else path_parts_from p' (piece ++ String c EmptyString)
  end.

Definition path_parts (p : string) : list string := path_parts_from p "".

Definition path_str (root : string) (parts : list string) : string :=
  match root, parts with
  | EmptyString, [] => "."
  | _, _ => root ++ String.concat "/" parts
  end.

Definition path_join (a b : string) : string :=
  match path_root b with
  | EmptyString => path_str (path_root a) (path_parts a ++ path_parts b)%list
  | root => path_str root (path_parts b)
  end.

(** The check mark of the success message, U+2705 in UTF-8. *)
Definition check_mark : string :=
  String "226"%char (String "156"%char (String "133"%char EmptyString)).

(** [ArchitectureVisualizer._render_graph] *)
Definition _render_graph (env : Env) (output_dir : string) (g : graph)
  (filename : string) : M unit :=
  let output_path := path_join output_dir filename in
  try_except
    (emit (EvRender g output_path) ;;;
     lift (render env g output_path) ;;;
     print [Lit check_mark; Lit " Diagram saved to "; Lit output_path; Lit ".png"])
    (fun e =>
       if is_ExecutableNotFound e then
         Some (print [Lit (nl ++ "Error: 'graphviz' executable not found.")] ;;;
               print [Lit "Please install Graphviz on your system."] ;;;
               print [Lit "  - macOS: brew install graphviz"] ;;;
               print [Lit "  - Ubuntu/Debian: sudo apt-get install graphviz"] ;;;
               print [Lit "  - Windows: choco install graphviz"] ;;;
               sys_exit 1)
       else if is_Exception e then
         Some (print [Lit "An error occurred during graph rendering: "; Exc e])
       else None).

(** [details.get('calls', [])] *)
Definition calls_or_empty (details : FunctionEntry) : list string :=
  match calls details with Some cs => cs | None => [] end.

(** The inner loop of [generate_from_structure]: an edge for every call
    whose name is a key of [code_structure['functions']]. *)
Definition add_edge (fs : PyDict.t FunctionEntry) (func : string)
  (dot : Digraph) (call : string) : Digraph :=
  if PyDict.contains call fs then edge func call dot else dot.

(** The body of the outer loop: the node of the function, then its edges. *)
Definition add_function (fs : PyDict.t FunctionEntry) (dot : Digraph)
  (item : string * FunctionEntry) : Digraph :=
  let '(func, details) := item in
  fold_left (add_edge fs func) (calls_or_empty details)
            (node func (func ++ "()") dot).

(** The [Digraph] that [generate_from_structure] has built when its loop
    ends. *)
Definition build_dot (code_structure : CodeStructure) : Digraph :=
  let dot := new_Digraph "Legacy_Architecture" "Original Code Structure" in
  let dot := attr (Some "node") [("shape", "box"); ("style", "rounded")] dot in
  let dot := attr None [("label", "Original Architecture"); ("labelloc", "t");
                        ("fontsize", "16")] dot in
  fold_left (add_function (functions code_structure))
            (PyDict.items (functions code_structure)) dot.

Definition nothing_to_draw : list fragment :=
  [Lit "No defined functions found to visualize in the original structure."].

(** [ArchitectureVisualizer.generate_from_structure] *)
Definition generate_from_structure (env : Env) (output_dir : string)
  (code_structure : CodeStructure) (filename : string) : M unit :=
  let dot := build_dot code_structure in
  match body dot with
  | [] => print nothing_to_draw
  | _ => _render_graph env output_dir (DigraphObj dot) filename
  end.

(** [ArchitectureVisualizer.generate_from_dot_string].  [graphviz.Source]
    only stores its argument. *)
Definition generate_from_dot_string (env : Env) (output_dir : string)
  (dot_string : json) (filename : string) : M unit :=
  try_except
    (let g := SourceObj dot_string in
     _render_graph env output_dir g filename)
    (fun e =>
       if is_Exception e then
         Some (print [Lit "Error rendering DOT string: "; Exc e] ;;;
               print [Lit "--- Invalid DOT string ---"] ;;;
               print [Val dot_string] ;;;
               print [Lit "------------------------"])
       else None).

(* ================================================================== *)
(** ** main                                                            *)
(* ================================================================== *)

(** [suggestion.get(key, default)]: only a dict has the method. *)
Definition py_get (v : json) (key : string) (default : json) : result json :=
  match v with
  | JObject fs => Ok (fields_get key default fs)
  | _ => Raise (AttributeError "get")
  end.

Definition main (env : Env) (file_path model : string) : M unit :=
  print [Lit "Analyzing legacy code file: "; Lit file_path] ;;;
  let target_name := stem env file_path in
  CodeAnalyzer_init env ;;;
  code_structure <- analyze env file_path ;;
  match code_structure with
  | None => ret tt
  | Some code_structure =>
      print [Lit "Code analysis complete. Found following structure:"] ;;;
      print [Dump code_structure] ;;;
      visualizer <- ArchitectureVisualizer_init env "output" ;;
      print [Lit (nl ++ "Generating 'before' architecture diagram...")] ;;;
      generate_from_structure env visualizer code_structure
                              (target_name ++ "_before") ;;;
      RefactorSuggester_init env model ;;;
      suggestion <- suggest env model code_structure ;;
      if negb (truthy suggestion) then
        print [Lit "Could not get a valid suggestion from the LLM. Exiting."]
      else
        print [Lit (nl ++ "--- AI Architect's Suggestion ---")] ;;;
        summary <- lift (py_get suggestion "summary" (JString "N/A")) ;;
        print [Lit (nl ++ "Summary: "); Val summary] ;;;
        print [Lit (nl ++ "Reasoning:")] ;;;
        reasoning <- lift (py_get suggestion "reasoning" (JArray [JString "N/A"])) ;;
        match reasoning with
        | JArray points => for_each (fun point => print [Lit "- "; Val point]) points
        | _ => print [Val reasoning]
        end ;;;
        print [Lit "-----------------------------------"] ;;;
        dot_string <- lift (py_get suggestion "new_architecture_dot" JNull) ;;
        if truthy dot_string then
          print [Lit (nl ++ "Generating 'after' architecture diagram...")] ;;;
          generate_from_dot_string env visualizer dot_string
                                   (target_name ++ "_after")
        else
          print [Lit (nl ++ "Warning: No DOT string for 'after' diagram found in the LLM response.")]
  end.

(* ================================================================== *)
(** ** Vocabulary of the statements                                    *)
(* ================================================================== *)

(** The capture of a function name by either query. *)
Definition name_capture (n : string) : Capture :=
  {| text := n; tag := "function.name" |}.

(** A capture of a callee name: the two slots the second loop accepts. *)
Definition is_callee (c : Capture) : bool :=
  str_in (tag c) ["function.call"; "method.name"].

(** Every entry of the dict has its ["calls"] list. *)
Definition all_have_calls (fs : PyDict.t FunctionEntry) : Prop :=
  Forall (fun kv => calls (snd kv) <> None) fs.

(** The calls recorded for a function: [structure["functions"][f]["calls"]]. *)
Definition calls_of (f : string) (fs : PyDict.t FunctionEntry)
  : option (list string) :=
  match PyDict.get f fs with
  | Some entry => calls entry
  | None => None
  end.

Definition is_edge (a b : string) (s : stmt) : bool :=
  match s with
  | EdgeStmt t h => (t =? a) && (h =? b)
  | _ => false
  end.

Definition is_node (s : stmt) : bool :=
  match s with NodeStmt _ _ => true | _ => false end.

(** How many edges [a -> b] a graph body declares. *)
Definition count_edges (a b : string) (stmts : list stmt) : nat :=
  length (filter (is_edge a b) stmts).

(** [current_func] after the second loop has seen capture [c]. *)
Definition current_after (cur : option string) (c : Capture) : option string :=
  if tag c =? "function.name" then Some (text c) else cur.

(** Capture [c], met while [current_func] is [cur], is a call that the
    second loop books under the name [f]. *)
Definition recorded_under (f : string) (cur : option string) (c : Capture)
  : bool :=
  is_callee c &&
  match cur with
  | Some g => negb (g =? "") && (g =? f)
  | None => false
  end.

(** The callee names that a run of the second loop, started with
    [current_func = cur], books under [f], in order. *)
Fixpoint calls_under (f : string) (cur : option string) (caps : list Capture)
  : list string :=
  match caps with
  | [] => []
  | c :: caps' =>
      ((if recorded_under f cur c then [text c] else [])
         ++ calls_under f (current_after cur c) caps')%list
  end.

(** The lines one function contributes to the graph body: its node, then
    an edge for each of its calls that names a key of [fs]. *)
Definition function_stmts (fs : PyDict.t FunctionEntry)
  (item : string * FunctionEntry) : list stmt :=
  NodeStmt (fst item) (fst item ++ "()")
  :: map (EdgeStmt (fst item))
         (filter (fun call => PyDict.contains call fs) (calls_or_empty (snd item))).

(** The two attribute statements every "before" graph starts with. *)
Definition header_stmts : list stmt :=
  [AttrStmt (Some "node") [("shape", "box"); ("style", "rounded")];
   AttrStmt None [("label", "Original Architecture"); ("labelloc", "t");
                  ("fontsize", "16")]].

(** The lines [_render_graph] prints: on success, when the Graphviz
    executable is missing, and on any other error of the renderer. *)
Definition saved_line (output_path : string) : list fragment :=
  [Lit check_mark; Lit " Diagram saved to "; Lit output_path; Lit ".png"].

Definition not_found_lines : list event :=
  [EvPrint [Lit (nl ++ "Error: 'graphviz' executable not found.")];
   EvPrint [Lit "Please install Graphviz on your system."];
   EvPrint [Lit "  - macOS: brew install graphviz"];
   EvPrint [Lit "  - Ubuntu/Debian: sudo apt-get install graphviz"];
   EvPrint [Lit "  - Windows: choco install graphviz"]].

Definition render_error_line (e : exn) : list fragment :=
  [Lit "An error occurred during graph rendering: "; Exc e].

(** The lines with which [generate_from_dot_string] reports a DOT text it
    could not render. *)
Definition invalid_dot_lines (e : exn) (dot_string : json) : list event :=
  [EvPrint [Lit "Error rendering DOT string: "; Exc e];
   EvPrint [Lit "--- Invalid DOT string ---"];
   EvPrint [Val dot_string];
   EvPrint [Lit "------------------------"]].

(** An event that leaves something behind or goes past reading the file:
    parsing, creating the output directory, asking the collaborator,
    rendering. *)
Definition goes_past_reading (ev : event) : bool :=
  match ev with
  | EvParse _ | EvMkdir _ | EvInvoke _ | EvRender _ _ => true
  | _ => false
  end.

Definition file_not_found_line (file_path : string) : list fragment :=
  [Lit "Error: File not found at "; Lit file_path].

Definition analyzing_line (file_path : string) : list fragment :=
  [Lit "Analyzing legacy code file: "; Lit file_path].

(** The lines [suggest] prints after a [JSONDecodeError]. *)
Definition undecodable_lines (response : string) : list event :=
  [EvPrint [Lit "Error: Could not decode the LLM's JSON response."];
   EvPrint [Lit "--- Raw LLM Output ---"];
   EvPrint [Lit response];
   EvPrint [Lit "-----------------------"]].

(** What a computation does and returns when started on the empty trace. *)
Definition outcome_of {A : Type} (m : M A) : result A := fst (m []).
Definition events_of {A : Type} (m : M A) : trace := snd (m []).


(** The lines of [main] and of the two constructors that can end the run. *)
Definition language_error_lines (e : exn) : list event :=
  [EvPrint [Lit "Error getting tree-sitter language: "; Exc e];
   EvPrint [Lit "Please ensure tree-sitter grammars are correctly installed."]].

Definition model_error_lines (model_name : string) (e : exn) : list event :=
  [EvPrint [Lit "Error initializing Ollama model '"; Lit model_name;
            Lit "': "; Exc e];
   EvPrint [Lit "Please ensure Ollama is running and the specified model is available ('ollama run llama3')."]].

Definition analysis_report (cs : CodeStructure) : list event :=
  [EvPrint [Lit "Code analysis complete. Found following structure:"];
   EvPrint [Dump cs]].

Definition before_line : event :=
  EvPrint [Lit (nl ++ "Generating 'before' architecture diagram...")].

Definition after_line : event :=
  EvPrint [Lit (nl ++ "Generating 'after' architecture diagram...")].

Definition asking_line : event :=
  EvPrint [Lit (nl ++ "Asking the AI architect for refactoring suggestions...")].

Definition no_suggestion_line : event :=
  EvPrint [Lit "Could not get a valid suggestion from the LLM. Exiting."].

Definition suggestion_header : event :=
  EvPrint [Lit (nl ++ "--- AI Architect's Suggestion ---")].

Definition no_dot_line : event :=
  EvPrint [Lit (nl ++ "Warning: No DOT string for 'after' diagram found in the LLM response.")].

(** What [main] prints for the reasoning: a line per point of a list, the
    value itself otherwise. *)
Definition reasoning_events (reasoning : json) : list event :=
  match reasoning with
  | JArray points => map (fun point => EvPrint [Lit "- "; Val point]) points
  | _ => [EvPrint [Val reasoning]]
  end.

(** What [main] prints of a suggestion that is a dict with the given
    fields, up to the closing rule. *)
Definition presentation_events (fs : list (string * json)) : list event :=
  ([suggestion_header;
    EvPrint [Lit (nl ++ "Summary: "); Val (fields_get "summary" (JString "N/A") fs)];
    EvPrint [Lit (nl ++ "Reasoning:")]]
   ++ reasoning_events (fields_get "reasoning" (JArray [JString "N/A"]) fs)
   ++ [EvPrint [Lit "-----------------------------------"]])%list.

(** The renderer calls of a trace, in order. *)
Definition render_calls (tr : trace) : list (graph * string) :=
  flat_map (fun ev => match ev with
                      | EvRender g path => [(g, path)]
                      | _ => []
                      end) tr.

(** The collaborator was asked in this trace. *)
Definition asked (tr : trace) : bool :=
  existsb (fun ev => match ev with EvInvoke _ => true | _ => false end) tr.

(** How [main] ends once [suggest] has returned [suggestion], from the
    trace [tr]: nothing more for a false value, the printed suggestion and
    the "after" diagram for a dict, an [AttributeError] at the first
    [suggestion.get] for any other value. *)
Definition presented (env : Env) (target_name : string) (suggestion : json)
  (tr : trace) : result unit * trace :=
  if negb (truthy suggestion) then (Ok tt, (tr ++ [no_suggestion_line])%list)
  else
    match suggestion with
    | JObject fs =>
        let dot_string := fields_get "new_architecture_dot" JNull fs in
        if truthy dot_string then
          _render_graph env "output" (SourceObj dot_string)
            (target_name ++ "_after")
            (tr ++ presentation_events fs ++ [after_line])%list
        else (Ok tt, (tr ++ presentation_events fs ++ [no_dot_line])%list)
    | _ => (Raise (AttributeError "get"), (tr ++ [suggestion_header])%list)
    end.

(** Where [main] has the two diagrams rendered. *)
Definition before_path (env : Env) (file_path : string) : string :=
  path_join "output" (stem env file_path ++ "_before").

(** The trace of [main] up to the printed structure, for a file with text
    [code] and structure [cs]. *)
Definition analysis_events (file_path code : string) (cs : CodeStructure)
  : trace :=
  EvPrint (analyzing_line file_path) :: EvOpen file_path :: EvParse code
  :: analysis_report cs.

(** The trace of the "before" diagram when the renderer succeeds. *)
Definition before_events (env : Env) (file_path : string) (cs : CodeStructure)
  : trace :=
  [EvMkdir "output"; before_line;
   EvRender (DigraphObj (build_dot cs)) (before_path env file_path);
   EvPrint (saved_line (before_path env file_path))].

(** The trace of [suggest] up to the collaborator's answer. *)
Definition asking_events (cs : CodeStructure) : trace :=
  [asking_line; EvInvoke cs].

(** A capture the first loop of [analyze] acts on, and one the second loop
    acts on. *)
Definition is_name_capture (c : Capture) : bool := tag c =? "function.name".
Definition is_relevant (c : Capture) : bool := is_name_capture c || is_callee c.

(** The names the definition query captured, in capture order. *)
Definition defined_names (func_caps : list Capture) : list string :=
  map text (filter is_name_capture func_caps).

(** A list of names with every repetition after the first dropped. *)
Fixpoint first_occurrences (names : list string) : list string :=
  match names with
  | [] => []
  | n :: rest => n :: filter (fun m => negb (m =? n)) (first_occurrences rest)
  end.

(** The node statement [generate_from_structure] makes for a function. *)
Definition node_of (func : string) : stmt := NodeStmt func (func ++ "()").

(** The heads of the edges that leave [a], in the order of the body. *)
Definition heads_from (a : string) (stmts : list stmt) : list string :=
  flat_map (fun s => match s with
                     | EdgeStmt t h => if t =? a then [h] else []
                     | _ => []
                     end) stmts.

(* ================================================================== *)
(** ** Environments of the worked scenarios                            *)
(* ================================================================== *)

(** [PurePosixPath(p).name]: the last component of the path, empty and
    ["."] components left out. *)
Definition keeps_component (part : string) : bool :=
  negb (part =? "") && negb (part =? ".").

Fixpoint path_name_from (p part last : string) : string :=
  match p with
  | EmptyString => if keeps_component part then part else last
  | String c p' =>
      if Ascii.eqb c "/"%char
      then path_name_from p' "" (if keeps_component part then part else last)
      else path_name_from p' (part ++ String c EmptyString) last
  end.

Definition path_name (p : string) : string := path_name_from p "" "".

(** [name.rfind('.')], counting from position [i]. *)
Fixpoint rfind_dot (name : string) (i : nat) (found : option nat) : option nat :=
  match name with
  | EmptyString => found
  | String c name' =>
      rfind_dot name' (S i) (if Ascii.eqb c "."%char then Some i else found)
  end.

(** [PurePosixPath(p).stem]: the name without its last suffix; a dot that
    starts or ends the name opens no suffix. *)
Definition posix_stem (p : string) : string :=
  let name := path_name p in
  match rfind_dot name 0 None with
  | Some i =>
      if ((0 <? i) && (i <? String.length name - 1))%nat
      then substring 0 i name else name
  | None => name
  end.

(** An environment where every tool works, no file exists, the queries
    capture nothing and the collaborator answers with the empty text. *)
Definition base_env : Env :=
  {| read_text := fun p => Raise (FileNotFoundError p);
     get_language := fun _ => Ok tt;
     captures := fun _ _ => Ok [];
     ChatOllama := fun _ => Ok tt;
     chain_invoke := fun _ _ => Ok "";
     json_loads := fun _ => Raise (JSONDecodeError "Expecting value");
     mkdir := fun _ => Ok tt;
     render := fun _ _ => Ok tt;
     stem := posix_stem |}.

(** [env] with a readable file at [path] whose text is [code] and whose two
    queries yield the given captures. *)
Definition with_source (path code : string)
  (func_caps call_caps : list Capture) (env : Env) : Env :=
  {| read_text := fun p => if p =? path then Ok code else read_text env p;
     get_language := get_language env;
     captures := fun t q =>
       match t with
       | TreeOf c =>
           if (c =? code) && (q =? func_query) then Ok func_caps
           else if (c =? code) && (q =? call_query) then Ok call_caps
           else captures env t q
       end;
     ChatOllama := ChatOllama env;
     chain_invoke := chain_invoke env;
     json_loads := json_loads env;
     mkdir := mkdir env;
     render := render env;
     stem := stem env |}.

(** [env] with a file at [path] that [open] refuses with [e]. *)
Definition with_unreadable (path : string) (e : exn) (env : Env) : Env :=
  {| read_text := fun p => if p =? path then Raise e else read_text env p;
     get_language := get_language env;
     captures := captures env;
     ChatOllama := ChatOllama env;
     chain_invoke := chain_invoke env;
     json_loads := json_loads env;
     mkdir := mkdir env;
     render := render env;
     stem := stem env |}.

(** [env] with a collaborator that answers [response], which [json.loads]
    decodes as [decoded]. *)
Definition with_response (response : string) (decoded : result json)
  (env : Env) : Env :=
  {| read_text := read_text env;
     get_language := get_language env;
     captures := captures env;
     ChatOllama := ChatOllama env;
     chain_invoke := fun _ _ => Ok response;
     json_loads := fun s =>
       if s =? strip response then decoded else json_loads env s;
     mkdir := mkdir env;
     render := render env;
     stem := stem env |}.

(** [env] with a renderer that fails with [e] on every graph. *)
Definition with_render_error (e : exn) (env : Env) : Env :=
  {| read_text := read_text env;
     get_language := get_language env;
     captures := captures env;
     ChatOllama := ChatOllama env;
     chain_invoke := chain_invoke env;
     json_loads := json_loads env;
     mkdir := mkdir env;
     render := fun _ _ => Raise e;
     stem := stem env |}.

Definition callee_capture (n : string) : Capture :=
  {| text := n; tag := "function.call" |}.

(** The scenario of two functions, [a] calling [b]:
    [def a(): b()] and [def b(): pass]. *)
Definition two_functions_source : string :=
  "def a(): b()" ++ nl ++ "def b(): pass" ++ nl.

Definition two_functions_env : Env :=
  with_source "app.py" two_functions_source
    [name_capture "a"; name_capture "b"]
    [name_capture "a"; callee_capture "b"]
    base_env.

(** Tree-sitter writes the alternatives of a query between brackets and
    rejects the [|] that [call_query] puts between its two: the error of
    [language.query(call_query)]. *)
Definition query_rejected : exn :=
  OtherException "SyntaxError" "Invalid syntax at offset 239".

(** [env] with a readable file at [path] whose text is [code], whose
    definition query yields the given captures and whose call query is
    rejected. *)
Definition with_rejected_call_query (path code : string)
  (func_caps : list Capture) (env : Env) : Env :=
  {| read_text := fun p => if p =? path then Ok code else read_text env p;
     get_language := get_language env;
     captures := fun t q =>
       match t with
       | TreeOf c =>
           if (c =? code) && (q =? func_query) then Ok func_caps
           else if (c =? code) && (q =? call_query) then Raise query_rejected
           else captures env t q
       end;
     ChatOllama := ChatOllama env;
     chain_invoke := chain_invoke env;
     json_loads := json_loads env;
     mkdir := mkdir env;
     render := render env;
     stem := stem env |}.

(** Two definitions of one name: [def f(): a()], then [def f(): b()]. *)
Definition twice_defined_source : string :=
  "def f(): a()" ++ nl ++ "def f(): b()" ++ nl.

Definition twice_defined_env : Env :=
  with_rejected_call_query "app.py" twice_defined_source
    [name_capture "f"; name_capture "f"] base_env.

(** The structure of a file without function definitions. *)
Definition empty_structure : CodeStructure :=
  {| functions := PyDict.empty; classes := PyDict.empty; global_calls := [] |}.

(** One function calling another twice: [def a(): b(); b()] and
    [def b(): pass]. *)
Definition repeated_call_source : string :=
  "def a(): b(); b()" ++ nl ++ "def b(): pass" ++ nl.

Definition repeated_call_env : Env :=
  with_source "app.py" repeated_call_source
    [name_capture "a"; name_capture "b"]
    [name_capture "a"; callee_capture "b"; name_capture "a"; callee_capture "b"]
    base_env.

Definition repeated_call_structure : CodeStructure :=
  {| functions := [("a", {| calls := Some ["b"; "b"] |});
                   ("b", {| calls := Some [] |})];
     classes := [];
     global_calls := [] |}.



(** A file that exists and that [open] refuses: permission denied. *)
Definition unreadable_env : Env :=
  with_unreadable "secret.py" (PermissionError "secret.py") base_env.

(** A collaborator that answers with a JSON document of a foreign shape,
    [{"foo": 1}]. *)
Definition foreign_response : string := "{" ++ quoted "foo" ++ ": 1}".

Definition foreign_answer_env : Env :=
  with_response foreign_response (Ok (JObject [("foo", JInt 1)])) base_env.

(** A renderer that rejects the graph text it is given. *)
Definition rejecting_renderer_env : Env :=
  with_render_error (CalledProcessError "syntax error in line 1") base_env.

(** [env] with a grammar that cannot be loaded, an output directory that
    cannot be made, a model that cannot be set up, and a collaborator that
    cannot be reached. *)
Definition with_language_error (e : exn) (env : Env) : Env :=
  {| read_text := read_text env;
     get_language := fun _ => Raise e;
     captures := captures env;
     ChatOllama := ChatOllama env;
     chain_invoke := chain_invoke env;
     json_loads := json_loads env;
     mkdir := mkdir env;
     render := render env;
     stem := stem env |}.

Definition with_mkdir_error (e : exn) (env : Env) : Env :=
  {| read_text := read_text env;
     get_language := get_language env;
     captures := captures env;
     ChatOllama := ChatOllama env;
     chain_invoke := chain_invoke env;
     json_loads := json_loads env;
     mkdir := fun _ => Raise e;
     render := render env;
     stem := stem env |}.

Definition with_model_error (e : exn) (env : Env) : Env :=
  {| read_text := read_text env;
     get_language := get_language env;
     captures := captures env;
     ChatOllama := fun _ => Raise e;
     chain_invoke := chain_invoke env;
     json_loads := json_loads env;
     mkdir := mkdir env;
     render := render env;
     stem := stem env |}.

Definition with_invoke_error (e : exn) (env : Env) : Env :=
  {| read_text := read_text env;
     get_language := get_language env;
     captures := captures env;
     ChatOllama := ChatOllama env;
     chain_invoke := fun _ _ => Raise e;
     json_loads := json_loads env;
     mkdir := mkdir env;
     render := render env;
     stem := stem env |}.

(** The structure of the two-function scenario. *)
Definition two_functions_structure : CodeStructure :=
  {| functions := [("a", {| calls := Some ["b"] |});
                   ("b", {| calls := Some [] |})];
     classes := [];
     global_calls := [] |}.

(** A collaborator whose answer is complete: summary, two reasons and a
    graph. *)
Definition refactored_dot : string := "digraph Refactored { a -> b; }".








(** The two-function scenario with one tool out of order at a time. *)
Definition no_grammar : exn := OtherException "OSError" "cannot load grammar".
Definition no_grammar_env : Env := with_language_error no_grammar base_env.

Definition no_output_dir : exn := PermissionError "output".
Definition no_output_dir_env : Env :=
  with_mkdir_error no_output_dir two_functions_env.

Definition no_graphviz_env : Env :=
  with_render_error ExecutableNotFound two_functions_env.

Definition dot_failed : exn := CalledProcessError "dot: exit status 1".
Definition failing_renderer_env : Env :=
  with_render_error dot_failed two_functions_env.

Definition no_model : exn := OtherException "ConnectionError" "refused".
Definition no_model_env : Env := with_model_error no_model two_functions_env.

Definition no_answer : exn := OtherException "ConnectionError" "reset".
Definition no_answer_env : Env := with_invoke_error no_answer two_functions_env.

(** The call query also captures the call nodes themselves, tagged
    [call]: [def a(): b()] with the node of [b()] among the captures. *)
Definition call_nodes_env : Env :=
  with_source "app.py" two_functions_source
    [name_capture "a"; name_capture "b"]
    [name_capture "a"; {| text := "b()"; tag := "call" |}; callee_capture "b"]
    base_env.

(** A definition nested in another: [def outer(): a()], then inside it
    [def inner(): b()], then [c()] back in the body of [outer]. *)
Definition nested_source : string :=
  "def outer():" ++ nl ++ "    a()" ++ nl ++ "    def inner():" ++ nl
  ++ "        b()" ++ nl ++ "    c()" ++ nl.

Definition nested_env : Env :=
  with_source "app.py" nested_source
    [name_capture "outer"; name_capture "inner"]
    [name_capture "outer"; callee_capture "a";
     name_capture "inner"; callee_capture "b"; callee_capture "c"]
    base_env.

(* ================================================================== *)
(** ** The sample script [src/legacy_code_example.py]                  *)
(* ================================================================== *)

(** [process_data_monolith], with its own trace: what it reads, prints and
    writes.  Order values and totals are Python floats, that is, binary64
    numbers with their own addition and comparison. *)
Module Legacy.

(** A row of [csv.DictReader]: header names to fields; a field the row is
    too short for is [None]. *)
Definition Row : Type := PyDict.t (option string).

(** A user id as the rows give it: a string, or [None]. *)
Definition UserId : Type := option string.

Definition user_eqb (a b : UserId) : bool :=
  match a, b with
  | Some x, Some y => x =? y
  | None, None => true
  | _, _ => false
  end.

(** The dicts [user_orders] and [high_value_users]: user ids to totals, in
    insertion order. *)
Definition Totals : Type := list (UserId * float).

Fixpoint get (k : UserId) (d : Totals) : option float :=
  match d with
  | [] => None
  | (k', v) :: d' => if user_eqb k k' then Some v else get k d'
  end.

Definition contains (k : UserId) (d : Totals) : bool :=
  match get k d with Some _ => true | None => false end.

Fixpoint set (k : UserId) (v : float) (d : Totals) : Totals :=
  match d with
  | [] => [(k, v)]
  | (k', v') :: d' =>
      if user_eqb k k' then (k, v) :: d' else (k', v') :: set k v d'
  end.

(** The dict [report_data] handed to [json.dump]. *)
Record Report : Type := {
  high_value_users : Totals;
  user_count : nat
}.

(** A cell of a CSV row. *)
Inductive cell : Type :=
| Text (s : string)
| User (u : UserId)
| Amount (x : float).

Inductive fragment : Type :=
| Lit (s : string)
| Count (n : nat).

Inductive event : Type :=
| EvPrint (line : list fragment)
| EvRead (path : string)
| EvWriteJson (path : string) (report : Report)
| EvWriteCsv (path : string) (rows : list (list cell)).

Definition trace : Type := list event.
Definition M (A : Type) : Type := trace -> result A * trace.

Definition ret {A : Type} (a : A) : M A := fun tr => (Ok a, tr).
Definition bind {A B : Type} (m : M A) (k : A -> M B) : M B :=
  fun tr =>
    match m tr with
    | (Ok a, tr') => k a tr'
    | (Raise e, tr') => (Raise e, tr')
    end.
Definition emit (ev : event) : M unit := fun tr => (Ok tt, (tr ++ [ev])%list).
Definition lift {A : Type} (r : result A) : M A := fun tr => (r, tr).
Definition try_except {A : Type} (m : M A) (handler : exn -> option (M A))
  : M A :=
  fun tr =>
    match m tr with
    | (Ok a, tr') => (Ok a, tr')
    | (Raise e, tr') =>
        match handler e with
        | Some h => h tr'
        | None => (Raise e, tr')
        end
    end.
Definition print (line : list fragment) : M unit := emit (EvPrint line).

(** What the script gets from outside. *)
Record Env : Type := {
  (** [open(path, 'r')] and the rows of [csv.DictReader] *)
  read_records : string -> result (list Row);
  (** [float(s)] for a string *)
  float_of_string : string -> result float;
  (** [open(path, 'w')] and [json.dump(report_data, f, indent=4)] *)
  write_json : string -> Report -> result unit;
  (** [open(path, 'w', newline='')] and the [writerow] calls *)
  write_csv : string -> list (list cell) -> result unit
}.

(** The classes the handlers of the script name.  [UnicodeDecodeError] and
    [JSONDecodeError] derive from [ValueError]; [IOError] is [OSError], so
    [except IOError] takes every class that derives from [OSError]. *)
Definition is_ValueError (e : exn) : bool :=
  match e with
  | UnicodeDecodeError | JSONDecodeError _ => true
  | OtherException cls _ => cls =? "ValueError"
  | _ => false
  end.

Definition is_TypeError (e : exn) : bool :=
  match e with
  | OtherException cls _ => cls =? "TypeError"
  | _ => false
  end.

(** The built-in classes that derive from [OSError], by name; an
    [OtherException] stands for the built-in class it names. *)
Definition os_error_classes : list string :=
  ["OSError"; "IOError"; "EnvironmentError"; "BlockingIOError";
   "ChildProcessError"; "ConnectionError"; "BrokenPipeError";
   "ConnectionAbortedError"; "ConnectionRefusedError"; "ConnectionResetError";
   "FileExistsError"; "FileNotFoundError"; "InterruptedError";
   "IsADirectoryError"; "NotADirectoryError"; "PermissionError";
   "ProcessLookupError"; "TimeoutError"; "UnsupportedOperation"].

Definition is_IOError (e : exn) : bool :=
  match e with
  | FileNotFoundError _ | PermissionError _ | IsADirectoryError _ => true
  | OtherException cls _ => str_in cls os_error_classes
  | _ => false
  end.

(** [float(x)] for a field: [None] is a [TypeError]. *)
Definition py_float (env : Env) (field : option string) : result float :=
  match field with
  | Some s => float_of_string env s
  | None => Raise (OtherException "TypeError" "float() argument must be a string or a real number, not 'NoneType'")
  end.

(** One iteration of the aggregation loop.  A missing column is a
    [KeyError]; a value that [float] refuses with [ValueError] or
    [TypeError] skips the record.  The total starts at [0] and the order
    value is added to it. *)
Definition aggregate_record (env : Env) (user_orders : Totals)
  (record : Row) : result Totals :=
  match PyDict.get "user_id" record with
  | None => Raise (KeyError "user_id")
  | Some user_id =>
      match PyDict.get "order_value" record with
      | None => Raise (KeyError "order_value")
      | Some field =>
          match py_float env field with
          | Raise e =>
              if is_ValueError e || is_TypeError e then Ok user_orders
              else Raise e
          | Ok order_value =>
              let user_orders :=
                if negb (contains user_id user_orders)
                then set user_id 0%float user_orders else user_orders in
              match get user_id user_orders with
              | Some total =>
                  Ok (set user_id (PrimFloat.add total order_value) user_orders)
              | None => Raise (KeyError "user_id")
              end
          end
      end
  end.

Definition aggregate (env : Env) (records : list Row) : result Totals :=
  fold_result (aggregate_record env) records [].

Definition high_value_threshold : float := 1000%float.

(** The dict comprehension: the users whose total is above the threshold,
    in the order of [user_orders]. *)
Definition select_high_value (user_orders : Totals) : Totals :=
  filter (fun item => PrimFloat.ltb high_value_threshold (snd item)) user_orders.

Definition csv_rows (high_value : Totals) : list (list cell) :=
  [Text "user_id"; Text "total_order_value"]
  :: map (fun item => [User (fst item); Amount (snd item)]) high_value.

Definition process_data_monolith (env : Env)
  (input_file output_file_json output_file_csv : string) : M unit :=
  bind (print [Lit "Starting data processing for "; Lit input_file; Lit "..."])
  (fun _ =>
  bind (try_except
          (bind (emit (EvRead input_file)) (fun _ =>
           bind (lift (read_records env input_file)) (fun records =>
           ret (Some records))))
          (fun e =>
             if is_FileNotFoundError e then
               Some (bind (print [Lit "Error: Input file "; Lit input_file;
                                  Lit " not found."])
                          (fun _ => ret None))
             else None))
  (fun read =>
  match read with
  | None => ret tt
  | Some records =>
      bind (print [Lit "Read "; Count (length records); Lit " records."])
      (fun _ =>
      bind (lift (aggregate env records)) (fun user_orders =>
      bind (print [Lit "Aggregated order values for users."]) (fun _ =>
      let high_value := select_high_value user_orders in
      bind (print [Lit "Found "; Count (length high_value);
                   Lit " high-value users."]) (fun _ =>
      let report_data := {| high_value_users := high_value;
                            user_count := length high_value |} in
      bind (try_except
              (bind (emit (EvWriteJson output_file_json report_data)) (fun _ =>
               bind (lift (write_json env output_file_json report_data)) (fun _ =>
               print [Lit "JSON report written to "; Lit output_file_json])))
              (fun e =>
                 if is_IOError e then
                   Some (print [Lit "Error writing to "; Lit output_file_json])
                 else None))
      (fun _ =>
      try_except
        (bind (emit (EvWriteCsv output_file_csv (csv_rows high_value))) (fun _ =>
         bind (lift (write_csv env output_file_csv (csv_rows high_value))) (fun _ =>
         print [Lit "CSV report written to "; Lit output_file_csv])))
        (fun e =>
           if is_IOError e then
             Some (print [Lit "Error writing to "; Lit output_file_csv])
           else None))))))
  end)).


(** *** Vocabulary of the statements *)

Definition outcome_of {A : Type} (m : M A) : result A := fst (m []).
Definition events_of {A : Type} (m : M A) : trace := snd (m []).

(** The order a record contributes: its user and its value, when it has
    both columns and [float] accepts the value. *)
Definition accepted (env : Env) (record : Row) : option (UserId * float) :=
  match PyDict.get "user_id" record, PyDict.get "order_value" record with
  | Some user_id, Some field =>
      match py_float env field with
      | Ok order_value => Some (user_id, order_value)
      | Raise _ => None
      end
  | _, _ => None
  end.

(** A record the loop passes over: it has both columns and [float] refuses
    the value with a [ValueError] or a [TypeError]. *)
Definition skipped (env : Env) (record : Row) : bool :=
  match PyDict.get "user_id" record, PyDict.get "order_value" record with
  | Some _, Some field =>
      match py_float env field with
      | Ok _ => false
      | Raise e => is_ValueError e || is_TypeError e
      end
  | _, _ => false
  end.

(** A record the loop gets through: accepted or skipped. *)
Definition passes (env : Env) (record : Row) : bool :=
  match accepted env record with
  | Some _ => true
  | None => skipped env record
  end.

(** The order values of user [u] among the records, in order. *)
Definition values_of (env : Env) (u : UserId) (records : list Row)
  : list float :=
  flat_map (fun record =>
              match accepted env record with
              | Some (user_id, order_value) =>
                  if user_eqb u user_id then [order_value] else []
              | None => []
              end) records.

(** The total of a non-empty run of order values: they are added one by
    one, from the left, to [0]. *)
Definition total_of (values : list float) : option float :=
  match values with
  | [] => None
  | _ => Some (fold_left PrimFloat.add values 0%float)
  end.

(** The total that was there, or the [0] a new user starts from. *)
Definition start_of (total : option float) : float :=
  match total with Some t => t | None => 0%float end.

(** The total a run of values leaves, from what was there before. *)
Definition extend (total : option float) (values : list float) : option float :=
  match values with
  | [] => total
  | _ => Some (fold_left PrimFloat.add values (start_of total))
  end.

Definition is_write (ev : event) : bool :=
  match ev with
  | EvWriteJson _ _ | EvWriteCsv _ _ => true
  | _ => false
  end.

Definition start_line (input_file : string) : event :=
  EvPrint [Lit "Starting data processing for "; Lit input_file; Lit "..."].
Definition not_found_line (input_file : string) : event :=
  EvPrint [Lit "Error: Input file "; Lit input_file; Lit " not found."].
Definition read_line (n : nat) : event :=
  EvPrint [Lit "Read "; Count n; Lit " records."].
Definition aggregated_line : event :=
  EvPrint [Lit "Aggregated order values for users."].
Definition found_line (n : nat) : event :=
  EvPrint [Lit "Found "; Count n; Lit " high-value users."].
Definition written_line (kind path : string) : event :=
  EvPrint [Lit (kind ++ " report written to "); Lit path].
Definition write_error_line (path : string) : event :=
  EvPrint [Lit "Error writing to "; Lit path].

(** The report of a dict of totals. *)
Definition report_of (user_orders : Totals) : Report :=
  {| high_value_users := select_high_value user_orders;
     user_count := length (select_high_value user_orders) |}.

(** The trace of the CSV step, by what the writer does. *)
Definition csv_step (env : Env) (output_file_csv : string) (high_value : Totals)
  : result unit * trace :=
  let attempt := EvWriteCsv output_file_csv (csv_rows high_value) in
  match write_csv env output_file_csv (csv_rows high_value) with
  | Ok _ => (Ok tt, [attempt; written_line "CSV" output_file_csv])
  | Raise e =>
      if is_IOError e
      then (Ok tt, [attempt; write_error_line output_file_csv])
      else (Raise e, [attempt])
  end.

(** *** Scenarios *)

Definition row (user_id order_value : string) : Row :=
  [("user_id", Some user_id); ("order_id", Some "a000");
   ("order_value", Some order_value)].

(** A reader of decimal numerals for the scenarios: [500] and [750] are
    numbers, anything else is refused as [float] refuses text. *)
Definition scenario_float (s : string) : result float :=
  if s =? "500" then Ok 500%float
  else if s =? "750" then Ok 750%float
  else Raise (OtherException "ValueError" "could not convert string to float").

Definition sample_records : list Row :=
  [row "user1" "500"; row "user2" "n/a"; row "user1" "750"].

Definition sample_env : Env :=
  {| read_records := fun path =>
       if path =? "data.csv" then Ok sample_records
       else Raise (FileNotFoundError path);
     float_of_string := scenario_float;
     write_json := fun _ _ => Ok tt;
     write_csv := fun _ _ => Ok tt |}.

(** The same with a header that lacks the [user_id] column, and with a
    JSON report that cannot be written. *)
Definition headless_env : Env :=
  {| read_records := fun _ => Ok [[("order_value", Some "500")]];
     float_of_string := scenario_float;
     write_json := fun _ _ => Ok tt;
     write_csv := fun _ _ => Ok tt |}.

Definition read_only_env : Env :=
  {| read_records := read_records sample_env;
     float_of_string := scenario_float;
     write_json := fun path _ => Raise (PermissionError path);
     write_csv := fun _ _ => Ok tt |}.

End Legacy.

(* ================================================================== *)
(** * Facts                                                            *)
(* ================================================================== *)

(** ** Dictionaries *)

Module PyDictFacts.
Import PyDict.

Section Facts.
Context {V : Type}.
Implicit Types (d : t V) (k : string) (v : V).

Lemma get_set_same k v d : get k (set k v d) = Some v.
Proof.
  induction d as [|[k' v'] d IH]; simpl.
  - now rewrite String.eqb_refl.
  - destruct (String.eqb k k') eqn:E; simpl.
    + now rewrite String.eqb_refl.
    + now rewrite E.
Qed.

Lemma get_set_other k k' v d : k <> k' -> get k' (set k v d) = get k' d.
Proof.
  intros Hne. induction d as [|[k0 v0] d IH]; simpl.
  - destruct (String.eqb k' k) eqn:E; [|reflexivity].
    apply String.eqb_eq in E. congruence.
  - destruct (String.eqb k k0) eqn:E; simpl.
    + apply String.eqb_eq in E. subst k0.
      destruct (String.eqb k' k) eqn:E'; [|reflexivity].
      apply String.eqb_eq in E'. congruence.
    + now rewrite IH.
Qed.

Lemma contains_In_keys k d : contains k d = true <-> In k (keys d).
Proof.
  unfold contains. induction d as [|[k' v'] d IH]; simpl.
  - split; [discriminate | tauto].
  - destruct (String.eqb k k') eqn:E.
    + apply String.eqb_eq in E. subst. tauto.
    + apply String.eqb_neq in E. split.
      * intros H. right. now apply IH.
      * intros [H|H]; [congruence | now apply IH].
Qed.

Lemma contains_false_keys k d : contains k d = false <-> ~ In k (keys d).
Proof.
  rewrite <- contains_In_keys. destruct (contains k d); split; congruence.
Qed.

Lemma keys_set_present k v d :
  contains k d = true -> keys (set k v d) = keys d.
Proof.
  unfold contains. induction d as [|[k' v'] d IH]; simpl; [discriminate|].
  destruct (String.eqb k k') eqn:E; simpl.
  - apply String.eqb_eq in E. now subst.
  - intros H. now rewrite IH.
Qed.

Lemma keys_set_absent k v d :
  contains k d = false -> keys (set k v d) = (keys d ++ [k])%list.
Proof.
  unfold contains. induction d as [|[k' v'] d IH]; simpl; [reflexivity|].
  destruct (String.eqb k k') eqn:E; simpl; [discriminate|].
  intros H. now rewrite IH.
Qed.

Lemma In_keys_set k k' v d :
  In k' (keys (set k v d)) <-> k' = k \/ In k' (keys d).
Proof.
  destruct (contains k d) eqn:E.
  - rewrite keys_set_present by assumption.
    apply contains_In_keys in E. split; [tauto|].
    intros [->|H]; assumption.
  - rewrite keys_set_absent by assumption.
    rewrite in_app_iff. simpl. intuition.
Qed.

Lemma wf_set k v d : wf d -> wf (set k v d).
Proof.
  unfold wf. intros H. destruct (contains k d) eqn:E.
  - now rewrite keys_set_present.
  - rewrite keys_set_absent by assumption.
    apply contains_false_keys in E.
    apply NoDup_app; [assumption | repeat constructor; simpl; tauto |].
    intros x Hx [<-|[]]. contradiction.
Qed.

Lemma get_In k v d : get k d = Some v -> In (k, v) d.
Proof.
  induction d as [|[k' v'] d IH]; simpl; [discriminate|].
  destruct (String.eqb k k') eqn:E.
  - apply String.eqb_eq in E. intros [= ->]. subst. now left.
  - intros H. right. now apply IH.
Qed.

Lemma In_get k v d : wf d -> In (k, v) d -> get k d = Some v.
Proof.
  unfold wf. induction d as [|[k' v'] d IH]; simpl; [tauto|].
  intros Hnd [H|H].
  - injection H as -> ->. now rewrite String.eqb_refl.
  - inversion Hnd as [|? ? Hnotin Hnd']; subst.
    destruct (String.eqb k k') eqn:E.
    + apply String.eqb_eq in E. subst k'.
      exfalso. apply Hnotin. change k with (fst (k, v)). now apply in_map.
    + now apply IH.
Qed.

End Facts.
End PyDictFacts.

(** ** The two loops of [analyze] *)

Lemma Forall_set {V : Type} (P : string * V -> Prop) k v (d : PyDict.t V) :
  Forall P d -> P (k, v) -> Forall P (PyDict.set k v d).
Proof.
  intros Hd Hkv. induction d as [|[k' v'] d IH]; simpl.
  - now constructor.
  - inversion Hd; subst. destruct (String.eqb k k') eqn:E.
    + now constructor.
    + constructor; [assumption | now apply IH].
Qed.

Lemma name_capture_eq n c :
  c = name_capture n <-> text c = n /\ tag c = "function.name".
Proof.
  destruct c as [t g]. unfold name_capture. simpl. split.
  - intros [= -> ->]. tauto.
  - intros [-> ->]. reflexivity.
Qed.

Lemma register_functions_keys caps : forall fs n,
  In n (PyDict.keys (register_functions caps fs)) <->
  In n (PyDict.keys fs) \/ In (name_capture n) caps.
Proof.
  unfold register_functions.
  induction caps as [|c caps IH]; intros fs n; simpl; [tauto|].
  rewrite IH. unfold register_function.
  rewrite (name_capture_eq n c).
  destruct (tag c =? "function.name") eqn:E.
  - apply String.eqb_eq in E. rewrite PyDictFacts.In_keys_set.
    intuition congruence.
  - apply String.eqb_neq in E. intuition congruence.
Qed.

Lemma register_functions_wf caps : forall fs,
  PyDict.wf fs -> PyDict.wf (register_functions caps fs).
Proof.
  unfold register_functions.
  induction caps as [|c caps IH]; intros fs H; simpl; [assumption|].
  apply IH. unfold register_function.
  destruct (tag c =? "function.name"); [now apply PyDictFacts.wf_set | assumption].
Qed.

Lemma register_functions_all_have_calls caps : forall fs,
  all_have_calls fs -> all_have_calls (register_functions caps fs).
Proof.
  unfold register_functions.
  induction caps as [|c caps IH]; intros fs H; simpl; [assumption|].
  apply IH. unfold register_function.
  destruct (tag c =? "function.name"); [|assumption].
  apply Forall_set; [assumption | simpl; discriminate].
Qed.

(** Right after the first loop every entry is a fresh [{"calls": []}]. *)
Lemma register_functions_fresh caps : forall fs,
  Forall (fun kv => calls (snd kv) = Some []) fs ->
  Forall (fun kv => calls (snd kv) = Some []) (register_functions caps fs).
Proof.
  unfold register_functions.
  induction caps as [|c caps IH]; intros fs H; simpl; [assumption|].
  apply IH. unfold register_function.
  destruct (tag c =? "function.name"); [|assumption].
  now apply Forall_set.
Qed.

Lemma all_have_calls_get fs k e :
  all_have_calls fs -> PyDict.get k fs = Some e -> exists l, calls e = Some l.
Proof.
  intros Hall Hget. apply PyDictFacts.get_In in Hget.
  unfold all_have_calls in Hall. rewrite Forall_forall in Hall.
  specialize (Hall _ Hget). simpl in Hall.
  destruct (calls e) as [l|]; [now exists l | congruence].
Qed.

Lemma contains_get {V : Type} k (d : PyDict.t V) :
  PyDict.contains k d = true -> exists v, PyDict.get k d = Some v.
Proof.
  unfold PyDict.contains. destruct (PyDict.get k d) as [v|]; [|discriminate].
  intros _. now exists v.
Qed.

(** With the guard passed and the entries complete, the append succeeds and
    touches the calls of that one entry only. *)
Lemma append_call_ok cur c fs :
  PyDict.contains cur fs = true -> all_have_calls fs ->
  exists l,
    calls_of cur fs = Some l /\
    append_call cur c fs =
      Ok (PyDict.set cur {| calls := Some (l ++ [c])%list |} fs).
Proof.
  intros Hc Hall. destruct (contains_get _ _ Hc) as [e He].
  destruct (all_have_calls_get _ _ _ Hall He) as [l Hl].
  exists l. unfold calls_of, append_call. rewrite He, Hl. split; reflexivity.
Qed.

(** One step of the second loop never raises on complete entries, keeps the
    keys and keeps the entries complete. *)
Lemma record_call_ok cur fs c :
  all_have_calls fs ->
  exists cur' fs',
    record_call (cur, fs) c = Ok (cur', fs') /\
    PyDict.keys fs' = PyDict.keys fs /\ all_have_calls fs'.
Proof.
  intros Hall. unfold record_call.
  destruct (tag c =? "function.name"); [now eauto|].
  destruct (str_in (tag c) ["function.call"; "method.name"] && name_truthy cur);
    [|now eauto].
  destruct cur as [cur|]; [|now eauto].
  destruct (PyDict.contains cur fs) eqn:Hc; [|now eauto].
  destruct (append_call_ok cur (text c) fs Hc Hall) as [l [_ ->]]. simpl.
  do 2 eexists. split; [reflexivity|]. split.
  - now apply PyDictFacts.keys_set_present.
  - apply Forall_set; [assumption | simpl; discriminate].
Qed.

Lemma record_calls_ok caps : forall cur fs,
  all_have_calls fs ->
  exists cur' fs',
    record_calls caps (cur, fs) = Ok (cur', fs') /\
    PyDict.keys fs' = PyDict.keys fs /\ all_have_calls fs'.
Proof.
  unfold record_calls.
  induction caps as [|c caps IH]; intros cur fs Hall; cbn [fold_result].
  - now eauto.
  - destruct (record_call_ok cur fs c Hall) as (cur1 & fs1 & -> & Hk & Hall1).
    cbn [rbind]. destruct (IH cur1 fs1 Hall1) as (cur2 & fs2 & -> & Hk2 & Hall2).
    do 2 eexists. split; [reflexivity|]. split; [congruence | assumption].
Qed.

(** Whatever the entries, a step that returns has kept the keys. *)
Lemma record_call_keys st c st' :
  record_call st c = Ok st' -> PyDict.keys (snd st') = PyDict.keys (snd st).
Proof.
  destruct st as [cur fs]. unfold record_call.
  destruct (tag c =? "function.name"); [now intros [= <-]|].
  destruct (str_in (tag c) ["function.call"; "method.name"] && name_truthy cur);
    [|now intros [= <-]].
  destruct cur as [cur|]; [|now intros [= <-]].
  destruct (PyDict.contains cur fs) eqn:Hc; [|now intros [= <-]].
  unfold append_call. destruct (PyDict.get cur fs) as [e|]; [|discriminate].
  destruct (calls e) as [l|]; [|discriminate]. simpl.
  intros [= <-]. simpl. now apply PyDictFacts.keys_set_present.
Qed.

Lemma record_calls_keys caps : forall st st',
  record_calls caps st = Ok st' ->
  PyDict.keys (snd st') = PyDict.keys (snd st).
Proof.
  unfold record_calls.
  induction caps as [|c caps IH]; intros st st'; cbn [fold_result].
  - now intros [= <-].
  - destruct (record_call st c) as [st1|e] eqn:E; cbn [rbind]; [|discriminate].
    intros H. rewrite (IH _ _ H). exact (record_call_keys _ _ _ E).
Qed.

Lemma all_have_calls_empty : all_have_calls PyDict.empty.
Proof. constructor. Qed.

(** [analyze] never fails between its queries and its [return]. *)
Lemma build_structure_ok func_caps call_caps :
  exists cur fs,
    record_calls call_caps (None, register_functions func_caps PyDict.empty)
      = Ok (cur, fs) /\
    build_structure func_caps call_caps =
      Ok {| functions := fs; classes := PyDict.empty; global_calls := [] |} /\
    PyDict.keys fs = PyDict.keys (register_functions func_caps PyDict.empty) /\
    all_have_calls fs.
Proof.
  destruct (record_calls_ok call_caps None
              (register_functions func_caps PyDict.empty)) as (cur & fs & H & Hk & Ha).
  - apply register_functions_all_have_calls, all_have_calls_empty.
  - exists cur, fs. unfold build_structure. rewrite H. simpl. auto.
Qed.

(** ** What the second loop records *)

Lemma option_map_app_nil (o : option (list string)) :
  option_map (fun l => (l ++ [])%list) o = o.
Proof. destruct o as [l|]; simpl; [now rewrite app_nil_r | reflexivity]. Qed.

Lemma is_callee_not_name c :
  tag c = "function.name" -> is_callee c = false.
Proof. unfold is_callee. intros ->. reflexivity. Qed.

(** One step of the second loop, entry by entry. *)
Lemma record_call_calls_of cur fs c :
  all_have_calls fs ->
  exists fs',
    record_call (cur, fs) c = Ok (current_after cur c, fs') /\
    all_have_calls fs' /\
    forall f,
      calls_of f fs' =
      option_map
        (fun l => (l ++ (if recorded_under f cur c then [text c] else []))%list)
        (calls_of f fs).
Proof.
  intros Hall. unfold record_call, current_after, recorded_under.
  destruct (tag c =? "function.name") eqn:E.
  { apply String.eqb_eq in E. rewrite (is_callee_not_name _ E).
    exists fs. repeat split; [assumption|]. intros f. cbn.
    now rewrite option_map_app_nil. }
  fold (is_callee c).
  destruct (is_callee c) eqn:Hc; cbn [andb].
  2:{ exists fs. repeat split; [assumption|]. intros f.
      now rewrite option_map_app_nil. }
  destruct cur as [g|]; cbn [name_truthy].
  2:{ exists fs. repeat split; [assumption|]. intros f.
      now rewrite option_map_app_nil. }
  destruct (negb (g =? "")) eqn:Hg; cbn [andb].
  2:{ exists fs. repeat split; [assumption|]. intros f.
      now rewrite option_map_app_nil. }
  destruct (PyDict.contains g fs) eqn:Hin.
  - destruct (append_call_ok g (text c) fs Hin Hall) as (l & Hl & ->).
    cbn [rbind]. eexists. split; [reflexivity|]. split.
    + apply Forall_set; [assumption | simpl; discriminate].
    + intros f. destruct (g =? f) eqn:Egf.
      * apply String.eqb_eq in Egf. subst f. rewrite Hl.
        unfold calls_of. now rewrite PyDictFacts.get_set_same.
      * apply String.eqb_neq in Egf. rewrite option_map_app_nil.
        unfold calls_of. now rewrite PyDictFacts.get_set_other.
  - exists fs. repeat split; [assumption|]. intros f.
    destruct (g =? f) eqn:Egf.
    + apply String.eqb_eq in Egf. subst f.
      unfold calls_of. unfold PyDict.contains in Hin.
      now destruct (PyDict.get g fs).
    + now rewrite option_map_app_nil.
Qed.

(** The whole second loop, entry by entry: the calls of [f] are extended by
    exactly the callee names booked under [f]. *)
Lemma record_calls_calls_of caps : forall cur fs,
  all_have_calls fs ->
  exists cur' fs',
    record_calls caps (cur, fs) = Ok (cur', fs') /\
    forall f,
      calls_of f fs' =
      option_map (fun l => (l ++ calls_under f cur caps)%list) (calls_of f fs).
Proof.
  unfold record_calls.
  induction caps as [|c caps IH]; intros cur fs Hall; cbn [fold_result calls_under].
  - exists cur, fs. split; [reflexivity|]. intros f.
    now rewrite option_map_app_nil.
  - destruct (record_call_calls_of cur fs c Hall) as (fs1 & -> & Hall1 & H1).
    cbn [rbind].
    destruct (IH (current_after cur c) fs1 Hall1) as (cur2 & fs2 & -> & H2).
    exists cur2, fs2. split; [reflexivity|]. intros f.
    rewrite H2, H1. destruct (calls_of f fs) as [l|]; cbn; [|reflexivity].
    now rewrite app_assoc.
Qed.

Lemma fresh_calls_of fs f :
  Forall (fun kv => calls (snd kv) = Some []) fs ->
  PyDict.contains f fs = true -> calls_of f fs = Some [].
Proof.
  intros Hfresh Hin. destruct (contains_get _ _ Hin) as [e He].
  unfold calls_of. rewrite He. apply PyDictFacts.get_In in He.
  rewrite Forall_forall in Hfresh. exact (Hfresh _ He).
Qed.

(** The calls that [analyze] records for a defined function [f] are the
    callee names booked under [f] by the captures of the call query. *)
Lemma build_structure_calls func_caps call_caps :
  exists cs,
    build_structure func_caps call_caps = Ok cs /\
    classes cs = PyDict.empty /\ global_calls cs = [] /\
    PyDict.wf (functions cs) /\
    (forall n, In n (PyDict.keys (functions cs)) <->
               In (name_capture n) func_caps) /\
    (forall f, In (name_capture f) func_caps ->
               calls_of f (functions cs) = Some (calls_under f None call_caps)).
Proof.
  set (fs0 := register_functions func_caps PyDict.empty).
  assert (Hall : all_have_calls fs0)
    by apply register_functions_all_have_calls, all_have_calls_empty.
  destruct (record_calls_calls_of call_caps None fs0 Hall) as (cur & fs & Hrun & Hcalls).
  pose proof (record_calls_keys _ _ _ Hrun) as Hk. cbn [snd] in Hk.
  exists {| functions := fs; classes := PyDict.empty; global_calls := [] |}.
  cbn [functions classes global_calls].
  assert (Hkeys : forall n, In n (PyDict.keys fs) <-> In (name_capture n) func_caps).
  { intros n. rewrite Hk. unfold fs0. rewrite register_functions_keys.
    simpl. tauto. }
  repeat split.
  - unfold build_structure. fold fs0. now rewrite Hrun.
  - unfold PyDict.wf. rewrite Hk. apply register_functions_wf. constructor.
  - apply Hkeys.
  - apply Hkeys.
  - intros f Hf. rewrite Hcalls. rewrite (fresh_calls_of fs0 f); [reflexivity| |].
    + apply register_functions_fresh. constructor.
    + apply PyDictFacts.contains_In_keys. rewrite <- Hk. now apply Hkeys.
Qed.

Lemma calls_under_app f xs : forall cur ys,
  calls_under f cur (xs ++ ys) =
  (calls_under f cur xs ++ calls_under f (fold_left current_after xs cur) ys)%list.
Proof.
  induction xs as [|c xs IH]; intros cur ys; simpl; [reflexivity|].
  now rewrite IH, app_assoc.
Qed.

(** Callee captures met while [current_func] is the non-empty name [f] are
    all booked under [f], and [current_func] stays. *)
Lemma calls_under_callees f cs :
  f <> "" -> forallb is_callee cs = true ->
  calls_under f (Some f) cs = map text cs /\
  fold_left current_after cs (Some f) = Some f.
Proof.
  intros Hf. induction cs as [|c cs IH]; simpl; [tauto|].
  intros H. apply andb_prop in H. destruct H as [Hc Hcs].
  unfold recorded_under, current_after. rewrite Hc.
  apply String.eqb_neq in Hf. rewrite Hf, String.eqb_refl. cbn.
  destruct (tag c =? "function.name") eqn:E.
  - apply String.eqb_eq in E. rewrite (is_callee_not_name _ E) in Hc. discriminate.
  - destruct (IH Hcs) as [Hcalls Hcur]. split; [now rewrite Hcalls | exact Hcur].
Qed.

(** Before the first function name the second loop changes nothing. *)
Lemma record_calls_skip_prefix pre : forall rest fs,
  Forall (fun c => tag c <> "function.name") pre ->
  record_calls (pre ++ rest) (None, fs) = record_calls rest (None, fs).
Proof.
  unfold record_calls.
  induction pre as [|c pre IH]; intros rest fs H; [reflexivity|].
  inversion H as [|? ? Hc Hpre]; subst. apply String.eqb_neq in Hc.
  cbn [app fold_result]. unfold record_call at 1. rewrite Hc.
  cbn [name_truthy]. rewrite andb_false_r. cbn [rbind]. now apply IH.
Qed.

(** The [|] that tree-sitter rejects stands at offset 239 of [call_query]. *)
Lemma call_query_bar : String.get 239 call_query = Some "|"%char.
Proof. reflexivity. Qed.

(** ** The body of the "before" graph *)

Lemma add_edges_body fs func calls : forall dot,
  body (fold_left (add_edge fs func) calls dot) =
  (body dot ++
   map (EdgeStmt func) (filter (fun call => PyDict.contains call fs) calls))%list.
Proof.
  induction calls as [|c calls IH]; intros dot; simpl.
  - now rewrite app_nil_r.
  - rewrite IH. unfold add_edge.
    destruct (PyDict.contains c fs); simpl; [|reflexivity].
    now rewrite <- app_assoc.
Qed.

Lemma add_function_body fs dot item :
  body (add_function fs dot item) = (body dot ++ function_stmts fs item)%list.
Proof.
  destruct item as [func details]. unfold add_function, function_stmts.
  rewrite add_edges_body. simpl. now rewrite <- app_assoc.
Qed.

Lemma add_functions_body fs items : forall dot,
  body (fold_left (add_function fs) items dot) =
  (body dot ++ flat_map (function_stmts fs) items)%list.
Proof.
  induction items as [|item items IH]; intros dot; simpl.
  - now rewrite app_nil_r.
  - now rewrite IH, add_function_body, <- app_assoc.
Qed.

(** The body that [generate_from_structure] tests and renders: the two
    attribute statements of [dot.attr], then node and edges of each function
    in the order of the mapping. *)
Lemma build_dot_body cs :
  body (build_dot cs) =
  (header_stmts ++
   flat_map (function_stmts (functions cs)) (PyDict.items (functions cs)))%list.
Proof. unfold build_dot. now rewrite add_functions_body. Qed.

Lemma In_edge_function_stmts fs item f callee :
  In (EdgeStmt f callee) (function_stmts fs item) <->
  fst item = f /\ In callee (calls_or_empty (snd item)) /\
  PyDict.contains callee fs = true.
Proof.
  unfold function_stmts. simpl. rewrite in_map_iff. split.
  - intros [H|(x & Hx & Hin)]; [discriminate|].
    injection Hx as -> ->. apply filter_In in Hin. tauto.
  - intros (<- & Hin & Hc). right. exists callee. split; [reflexivity|].
    apply filter_In. tauto.
Qed.

Lemma In_edge_build_dot cs f callee :
  In (EdgeStmt f callee) (body (build_dot cs)) <->
  (exists details,
      In (f, details) (PyDict.items (functions cs)) /\
      In callee (calls_or_empty details)) /\
  PyDict.contains callee (functions cs) = true.
Proof.
  rewrite build_dot_body, in_app_iff, in_flat_map. split.
  - intros [H|([k d] & Hin & H)].
    + simpl in H. intuition discriminate.
    + apply In_edge_function_stmts in H. simpl in H.
      destruct H as (-> & Hc & Hk). split; [now exists d | assumption].
  - intros ((d & Hin & Hc) & Hk). right. exists (f, d). split; [assumption|].
    apply In_edge_function_stmts. simpl. tauto.
Qed.

Lemma count_edges_app a b xs ys :
  count_edges a b (xs ++ ys) = count_edges a b xs + count_edges a b ys.
Proof. unfold count_edges. now rewrite filter_app, length_app. Qed.

Lemma count_edges_map_other a b k l :
  k <> a -> count_edges a b (map (EdgeStmt k) l) = 0.
Proof.
  intros Hk. apply String.eqb_neq in Hk. unfold count_edges.
  induction l as [|x l IH]; simpl; [reflexivity|]. now rewrite Hk.
Qed.

Lemma count_edges_map_same a b l :
  count_edges a b (map (EdgeStmt a) l) = count_occ string_dec l b.
Proof.
  unfold count_edges. induction l as [|x l IH]; simpl; [reflexivity|].
  rewrite String.eqb_refl. simpl.
  destruct (string_dec x b) as [->|Hne].
  - rewrite String.eqb_refl. simpl. now rewrite IH.
  - apply String.eqb_neq in Hne. now rewrite Hne.
Qed.

Lemma count_occ_filter (p : string -> bool) l b :
  count_occ string_dec (filter p l) b =
  if p b then count_occ string_dec l b else 0.
Proof.
  induction l as [|x l IH]; simpl; [now destruct (p b)|].
  destruct (p x) eqn:Epx; simpl; destruct (string_dec x b) as [->|Hne];
    rewrite IH; try rewrite Epx; reflexivity.
Qed.

(** The edges [a -> b] of a run of the outer loop over [items] whose keys
    are distinct come from the entry of [a] alone. *)
Lemma count_edges_items fs a b items :
  NoDup (PyDict.keys items) ->
  count_edges a b (flat_map (function_stmts fs) items) =
  match PyDict.get a items with
  | Some details =>
      if PyDict.contains b fs
      then count_occ string_dec (calls_or_empty details) b else 0
  | None => 0
  end.
Proof.
  induction items as [|[k d] items IH]; intros Hnd; [reflexivity|].
  inversion Hnd as [|? ? Hnotin Hnd']; subst.
  cbn [flat_map]. rewrite count_edges_app, (IH Hnd').
  cbn [PyDict.get]. unfold function_stmts at 1. cbn [fst snd].
  change (count_edges a b (?x :: ?l)) with (count_edges a b l).
  destruct (String.eqb a k) eqn:E.
  - apply String.eqb_eq in E. subst k.
    rewrite count_edges_map_same, count_occ_filter.
    apply PyDictFacts.contains_false_keys in Hnotin.
    unfold PyDict.contains in Hnotin.
    destruct (PyDict.get a items); [discriminate|]. now rewrite Nat.add_0_r.
  - apply String.eqb_neq in E. rewrite count_edges_map_other by congruence.
    reflexivity.
Qed.

(** The guard [if not dot.body] of [generate_from_structure] never holds:
    the body has the two attribute statements at least. *)
Lemma build_dot_body_nonempty cs : body (build_dot cs) <> [].
Proof. rewrite build_dot_body. discriminate. Qed.

Lemma generate_from_structure_renders env output_dir cs filename :
  generate_from_structure env output_dir cs filename =
  _render_graph env output_dir (DigraphObj (build_dot cs)) filename.
Proof.
  unfold generate_from_structure.
  pose proof (build_dot_body_nonempty cs) as H.
  destruct (body (build_dot cs)); [contradiction | reflexivity].
Qed.

(** ** Runs of the renderer *)

(** The four ways [_render_graph] ends, by what [graph.render] does. *)
Lemma render_graph_run env output_dir g filename tr :
  _render_graph env output_dir g filename tr =
  let output_path := path_join output_dir filename in
  match render env g output_path with
  | Ok _ =>
      (Ok tt, (tr ++ [EvRender g output_path; EvPrint (saved_line output_path)])%list)
  | Raise e =>
      if is_ExecutableNotFound e then
        (Raise (SystemExit 1), (tr ++ EvRender g output_path :: not_found_lines)%list)
      else if is_Exception e then
        (Ok tt, (tr ++ [EvRender g output_path; EvPrint (render_error_line e)])%list)
      else (Raise e, (tr ++ [EvRender g output_path])%list)
  end.
Proof.
  unfold _render_graph, try_except, bind, emit, lift, print, sys_exit, raise.
  cbn zeta. destruct (render env g (path_join output_dir filename)) as [[]|e].
  - unfold emit. now rewrite <- app_assoc.
  - destruct (is_ExecutableNotFound e).
    + unfold emit. cbn. repeat rewrite <- app_assoc. reflexivity.
    + destruct (is_Exception e); [|reflexivity].
      unfold emit. now rewrite <- app_assoc.
Qed.

(** ** Runs of [analyze] *)

(** Every way [analyze] ends, by what the outside answers.  The outcome
    does not depend on the trace the run starts from. *)
Lemma analyze_cases env file_path tr :
  analyze env file_path tr =
  match read_text env file_path with
  | Raise e =>
      if is_FileNotFoundError e then
        (Ok None,
         (tr ++ [EvOpen file_path; EvPrint (file_not_found_line file_path)])%list)
      else (Raise e, (tr ++ [EvOpen file_path])%list)
  | Ok code =>
      (match captures env (TreeOf code) func_query with
       | Raise e => Raise e
       | Ok func_caps =>
           match captures env (TreeOf code) call_query with
           | Raise e => Raise e
           | Ok call_caps =>
               match build_structure func_caps call_caps with
               | Ok cs => Ok (Some cs)
               | Raise e => Raise e
               end
           end
       end,
       (tr ++ [EvOpen file_path; EvParse code])%list)
  end.
Proof.
  unfold analyze, bind, try_except, emit, lift, ret, print.
  destruct (read_text env file_path) as [code|e]; cbn.
  - rewrite <- app_assoc. cbn.
    destruct (captures env (TreeOf code) func_query) as [fc|e]; [|reflexivity].
    destruct (captures env (TreeOf code) call_query) as [cc|e]; [|reflexivity].
    destruct (build_structure fc cc); reflexivity.
  - destruct (is_FileNotFoundError e); [|reflexivity].
    unfold emit. now rewrite <- app_assoc.
Qed.

(** ** Runs of [suggest] and of the DOT text renderer *)

Lemma replace_empty_empty s : replace "" "" s = s.
Proof.
  unfold replace. induction s as [|c s IH]; simpl; [reflexivity|].
  now rewrite IH.
Qed.

Lemma suggest_cases env model cs tr :
  suggest env model cs tr =
  let tr1 := (tr ++ [EvPrint [Lit (nl ++ "Asking the AI architect for refactoring suggestions...")];
                     EvInvoke cs])%list in
  match chain_invoke env model cs with
  | Raise e => (Raise e, tr1)
  | Ok response =>
      match json_loads env (strip response) with
      | Ok v => (Ok v, tr1)
      | Raise e =>
          if is_JSONDecodeError e
          then (Ok JNull, (tr1 ++ undecodable_lines response)%list)
          else (Raise e, tr1)
      end
  end.
Proof.
  unfold suggest, print, bind, try_except, emit, lift, ret, undecodable_lines.
  cbn zeta. cbn beta iota. rewrite <- app_assoc. cbn [app].
  destruct (chain_invoke env model cs) as [response|e]; [|reflexivity].
  rewrite !replace_empty_empty.
  destruct (json_loads env (strip response)) as [v|e]; [reflexivity|].
  destruct (is_JSONDecodeError e); [|reflexivity].
  repeat rewrite <- app_assoc. reflexivity.
Qed.

(** Every way [generate_from_dot_string] ends.  Its own handler takes no
    part: what the renderer raises is either handled inside
    [_render_graph] or is no [Exception]. *)
Lemma generate_from_dot_string_cases env output_dir dot_string filename tr :
  generate_from_dot_string env output_dir dot_string filename tr =
  _render_graph env output_dir (SourceObj dot_string) filename tr.
Proof.
  unfold generate_from_dot_string, try_except. cbn zeta.
  rewrite render_graph_run. cbn zeta.
  destruct (render env _ _) as [[]|e]; [reflexivity|].
  destruct (is_ExecutableNotFound e); [reflexivity|].
  destruct (is_Exception e) eqn:E; [reflexivity|]. now rewrite E.
Qed.

(** [generate_from_dot_string] returns, unless the Graphviz executable is
    missing, in which case the run ends by [sys.exit(1)]; this holds for a
    renderer that raises [Exception]s only. *)
Lemma generate_from_dot_string_total env output_dir dot_string filename :
  (forall g path e, render env g path = Raise e -> is_Exception e = true) ->
  outcome_of (generate_from_dot_string env output_dir dot_string filename) = Ok tt
  \/ (render env (SourceObj dot_string) (path_join output_dir filename)
        = Raise ExecutableNotFound /\
      outcome_of (generate_from_dot_string env output_dir dot_string filename)
        = Raise (SystemExit 1)).
Proof.
  intros Hexc. unfold outcome_of.
  rewrite generate_from_dot_string_cases, render_graph_run. cbn zeta.
  destruct (render env _ _) as [[]|e] eqn:E; [now left|].
  destruct (is_ExecutableNotFound e) eqn:Enf.
  - right. destruct e; try discriminate. split; reflexivity.
  - rewrite (Hexc _ _ _ E). now left.
Qed.

(** ** [analyze] on a readable file *)

Section AnalyzeOnCaptures.

Variable env : Env.
Variables file_path code : string.
Variables func_caps call_caps : list Capture.
Hypothesis Hread : read_text env file_path = Ok code.
Hypothesis Hfunc : captures env (TreeOf code) func_query = Ok func_caps.
Hypothesis Hcall : captures env (TreeOf code) call_query = Ok call_caps.

(** With the file read and both queries answered, [analyze] returns the
    dict of [build_structure], having opened and parsed the file. *)
Lemma analyze_run tr :
  analyze env file_path tr =
    (match build_structure func_caps call_caps with
     | Ok cs => Ok (Some cs)
     | Raise e => Raise e
     end,
     (tr ++ [EvOpen file_path; EvParse code])%list).
Proof.
  unfold analyze, bind, try_except, emit, lift, ret.
  rewrite Hread. cbn. rewrite Hfunc, Hcall.
  rewrite <- app_assoc. cbn.
  destruct (build_structure func_caps call_caps); reflexivity.
Qed.

End AnalyzeOnCaptures.

(** ** Runs of the constructors and of [main] *)

Lemma CodeAnalyzer_init_run env tr :
  CodeAnalyzer_init env tr =
  match get_language env "python" with
  | Ok _ => (Ok tt, tr)
  | Raise e =>
      if is_Exception e
      then (Raise (SystemExit 1), (tr ++ language_error_lines e)%list)
      else (Raise e, tr)
  end.
Proof.
  unfold CodeAnalyzer_init, try_except, lift.
  destruct (get_language env "python") as [[]|e]; [reflexivity|].
  destruct (is_Exception e); [|reflexivity].
  unfold print, bind, emit, sys_exit, raise, language_error_lines.
  now rewrite <- app_assoc.
Qed.

Lemma RefactorSuggester_init_run env model tr :
  RefactorSuggester_init env model tr =
  match ChatOllama env model with
  | Ok _ => (Ok tt, tr)
  | Raise e =>
      if is_Exception e
      then (Raise (SystemExit 1), (tr ++ model_error_lines model e)%list)
      else (Raise e, tr)
  end.
Proof.
  unfold RefactorSuggester_init, try_except, lift.
  destruct (ChatOllama env model) as [[]|e]; [reflexivity|].
  destruct (is_Exception e); [|reflexivity].
  unfold print, bind, emit, sys_exit, raise, model_error_lines.
  now rewrite <- app_assoc.
Qed.

Lemma ArchitectureVisualizer_init_run env output_dir tr :
  ArchitectureVisualizer_init env output_dir tr =
  (match mkdir env output_dir with
   | Ok _ => Ok output_dir
   | Raise e => Raise e
   end, (tr ++ [EvMkdir output_dir])%list).
Proof.
  unfold ArchitectureVisualizer_init, bind, emit, lift, ret.
  now destruct (mkdir env output_dir).
Qed.

Lemma for_each_points_run points : forall tr,
  for_each (fun point => print [Lit "- "; Val point]) points tr =
  (Ok tt, (tr ++ map (fun point => EvPrint [Lit "- "; Val point]) points)%list).
Proof.
  induction points as [|pt points IH]; intros tr; cbn [for_each map].
  - unfold ret. now rewrite app_nil_r.
  - unfold bind, print, emit. rewrite IH. now rewrite <- app_assoc.
Qed.

Lemma reasoning_run reasoning tr :
  match reasoning with
  | JArray points => for_each (fun point => print [Lit "- "; Val point]) points
  | _ => print [Val reasoning]
  end tr = (Ok tt, (tr ++ reasoning_events reasoning)%list).
Proof.
  destruct reasoning; try reflexivity. apply for_each_points_run.
Qed.


Lemma bind_print {A : Type} line (k : M A) tr :
  (print line ;;; k) tr = k (tr ++ [EvPrint line])%list.
Proof. reflexivity. Qed.

Lemma main_cases env file_path model :
  main env file_path model [] =
  let tr0 := [EvPrint (analyzing_line file_path)] in
  match get_language env "python" with
  | Raise e =>
      if is_Exception e
      then (Raise (SystemExit 1), (tr0 ++ language_error_lines e)%list)
      else (Raise e, tr0)
  | Ok _ =>
      match analyze env file_path tr0 with
      | (Raise e, tr) => (Raise e, tr)
      | (Ok None, tr) => (Ok tt, tr)
      | (Ok (Some cs), tr) =>
          let tr1 := (tr ++ analysis_report cs ++ [EvMkdir "output"])%list in
          match mkdir env "output" with
          | Raise e => (Raise e, tr1)
          | Ok _ =>
              match _render_graph env "output" (DigraphObj (build_dot cs))
                      (stem env file_path ++ "_before")
                      (tr1 ++ [before_line])%list with
              | (Raise e, tr2) => (Raise e, tr2)
              | (Ok _, tr2) =>
                  match ChatOllama env model with
                  | Raise e =>
                      if is_Exception e
                      then (Raise (SystemExit 1),
                            (tr2 ++ model_error_lines model e)%list)
                      else (Raise e, tr2)
                  | Ok _ =>
                      match suggest env model cs tr2 with
                      | (Raise e, tr3) => (Raise e, tr3)
                      | (Ok suggestion, tr3) =>
                          presented env (stem env file_path) suggestion tr3
                      end
                  end
              end
          end
      end
  end.
Proof.
  unfold main. rewrite bind_print. cbn [app]. unfold bind at 1.
  rewrite CodeAnalyzer_init_run.
  destruct (get_language env "python") as [[]|e].
  2:{ cbn zeta. now destruct (is_Exception e). }
  cbn zeta. unfold bind at 1.
  destruct (analyze env file_path _) as [[[cs|]|e] tr]; [|reflexivity|reflexivity].
  rewrite !bind_print. unfold bind at 1. rewrite ArchitectureVisualizer_init_run.
  unfold analysis_report. repeat rewrite <- app_assoc. cbn [app].
  destruct (mkdir env "output") as [[]|e]; [|reflexivity].
  rewrite bind_print. unfold bind at 1. rewrite generate_from_structure_renders.
  repeat rewrite <- app_assoc. cbn [app]. fold before_line.
  destruct (_render_graph env "output" _ _ _) as [[[]|e] tr2]; [|reflexivity].
  unfold bind at 1. rewrite RefactorSuggester_init_run.
  destruct (ChatOllama env model) as [[]|e].
  2:{ now destruct (is_Exception e). }
  unfold bind at 1.
  destruct (suggest env model cs tr2) as [[suggestion|e] tr3]; [|reflexivity].
  unfold presented. destruct (truthy suggestion) eqn:Ht; cbn [negb]; [|reflexivity].
  rewrite bind_print. fold suggestion_header. unfold bind at 1, lift at 1.
  destruct suggestion; try reflexivity.
  cbn [py_get]. rewrite bind_print, bind_print. unfold bind at 1, lift at 1.
  unfold bind at 1. rewrite reasoning_run. rewrite bind_print.
  unfold bind at 1, lift at 1. unfold presentation_events.
  destruct (truthy (fields_get "new_architecture_dot" JNull fields)).
  - rewrite bind_print, generate_from_dot_string_cases. fold after_line.
    repeat rewrite <- app_assoc. reflexivity.
  - unfold print, emit, no_dot_line. repeat rewrite <- app_assoc. reflexivity.
Qed.

(* ================================================================== *)
(** * The builder's invariant (C9)                                     *)
(* ================================================================== *)

(** C9. The keys of the [functions] mapping that [analyze] returns are
    exactly the names captured by the definition query.  Processing the
    call query never creates or removes an entry: the keys after the second
    loop are those the first loop left, a run of the second loop from any
    state keeps the keys, and a callee capture whose current function is not
    a key leaves the state as it is.  Every entry has its calls sequence. *)
Theorem analyze_keys_are_definitions
  (env : Env) (file_path code : string) (func_caps call_caps : list Capture) :
  read_text env file_path = Ok code ->
  captures env (TreeOf code) func_query = Ok func_caps ->
  captures env (TreeOf code) call_query = Ok call_caps ->
  exists cs,
    outcome_of (analyze env file_path) = Ok (Some cs) /\
    (forall n, In n (PyDict.keys (functions cs)) <->
               In (name_capture n) func_caps) /\
    PyDict.keys (functions cs) =
      PyDict.keys (register_functions func_caps PyDict.empty) /\
    (forall caps st st',
        record_calls caps st = Ok st' ->
        PyDict.keys (snd st') = PyDict.keys (snd st)) /\
    (forall cur fs c,
        is_callee c = true -> PyDict.contains cur fs = false ->
        record_call (Some cur, fs) c = Ok (Some cur, fs)) /\
    (forall n entry,
        PyDict.get n (functions cs) = Some entry ->
        exists l, calls entry = Some l).
Proof.
  intros Hread Hfunc Hcall.
  destruct (build_structure_ok func_caps call_caps) as (cur & fs & _ & Hb & Hk & Ha).
  eexists. split.
  { unfold outcome_of. rewrite (analyze_run _ _ _ _ _ Hread Hfunc Hcall), Hb.
    reflexivity. }
  cbn [functions]. repeat split.
  - rewrite Hk. intros H. apply register_functions_keys in H.
    destruct H as [[]|H]. exact H.
  - rewrite Hk. intros H. apply register_functions_keys. now right.
  - exact Hk.
  - exact record_calls_keys.
  - intros cur0 fs0 c Hc Hnk. unfold record_call.
    unfold is_callee in Hc.
    destruct (tag c =? "function.name") eqn:E.
    + apply String.eqb_eq in E. rewrite E in Hc. discriminate.
    + rewrite Hc, Hnk. cbn. now destruct (negb (cur0 =? "")).
  - intros n entry. now apply all_have_calls_get.
Qed.

Lemma analyze_keys_are_definitions_witness :
  read_text two_functions_env "app.py" = Ok two_functions_source /\
  exists cs,
    outcome_of (analyze two_functions_env "app.py") = Ok (Some cs) /\
    PyDict.keys (functions cs) = ["a"; "b"].
Proof.
  split; [reflexivity|].
  destruct (analyze_keys_are_definitions two_functions_env "app.py"
              two_functions_source
              [name_capture "a"; name_capture "b"]
              [name_capture "a"; callee_capture "b"]
              eq_refl eq_refl eq_refl) as (cs & Hcs & _ & Hk & _).
  exists cs. split; [exact Hcs | exact Hk].
Defined.

(* ================================================================== *)
(** * Two definitions of one name (C5)                                 *)
(* ================================================================== *)







(* ================================================================== *)
(** * The "before" diagram (C2, C3, C4)                                *)
(* ================================================================== *)

(** C2, at the structure of a file without functions.  The graph has no
    node, yet its body is not empty: it holds the two attribute statements
    that [dot.attr] appended.  The test [if not dot.body] therefore fails,
    nothing is reported, and [generate_from_structure] goes on to
    [_render_graph], which calls the renderer. *)
Theorem empty_structure_reaches_the_renderer
  (env : Env) (output_dir filename : string) :
  filter is_node (body (build_dot empty_structure)) = [] /\
  body (build_dot empty_structure) = header_stmts /\
  generate_from_structure env output_dir empty_structure filename =
    _render_graph env output_dir (DigraphObj (build_dot empty_structure)) filename /\
  In (EvRender (DigraphObj (build_dot empty_structure))
               (path_join output_dir filename))
     (events_of (generate_from_structure env output_dir empty_structure filename)) /\
  ~ In (EvPrint nothing_to_draw)
       (events_of (generate_from_structure env output_dir empty_structure filename)).
Proof.
  split; [reflexivity|]. split; [reflexivity|].
  split; [apply generate_from_structure_renders|].
  unfold events_of. rewrite generate_from_structure_renders, render_graph_run.
  cbn zeta.
  destruct (render env _ _) as [[]|e]; cbn [app snd].
  - split; [now left|]. intros [H|[H|[]]]; discriminate.
  - destruct (is_ExecutableNotFound e).
    + split; [now left|]. unfold not_found_lines. cbn [snd].
      intros H. repeat (destruct H as [H|H]; [discriminate|]). exact H.
    + destruct (is_Exception e); cbn [snd]; (split; [now left|]).
      * intros [H|[H|[]]]; discriminate.
      * intros [H|[]]; discriminate.
Qed.



(** C4, as the code has it.  For functions [a] and [b] that are both keys
    of the mapping, the graph has one edge [a -> b] for each occurrence of
    [b] in the calls of [a]: as many edges as calls, and exactly one only
    when [a] calls [b] once. *)
Theorem one_edge_per_recorded_call
  (cs : CodeStructure) (a b : string) (details : FunctionEntry) :
  PyDict.wf (functions cs) ->
  PyDict.get a (functions cs) = Some details ->
  PyDict.contains b (functions cs) = true ->
  count_edges a b (body (build_dot cs)) =
  count_occ string_dec (calls_or_empty details) b.
Proof.
  intros Hwf Ha Hb. rewrite build_dot_body, count_edges_app.
  unfold PyDict.items. rewrite (count_edges_items _ a b _ Hwf), Ha, Hb.
  reflexivity.
Qed.

Lemma one_edge_per_recorded_call_witness :
  PyDict.wf (functions repeated_call_structure) /\
  count_edges "a" "b" (body (build_dot repeated_call_structure)) = 2.
Proof.
  assert (Hwf : PyDict.wf (functions repeated_call_structure)).
  { repeat constructor; simpl; intuition discriminate. }
  split; [exact Hwf|].
  exact (one_edge_per_recorded_call repeated_call_structure "a" "b"
           {| calls := Some ["b"; "b"] |} Hwf eq_refl eq_refl).
Defined.

(** C4 as stated fails: [a] calls [b] twice, both are defined, and the
    graph has two edges [a -> b]. *)
Lemma repeated_call_draws_two_edges :
  outcome_of (analyze repeated_call_env "app.py") =
    Ok (Some repeated_call_structure) /\
  body (build_dot repeated_call_structure) =
    (header_stmts ++
     [NodeStmt "a" "a()"; EdgeStmt "a" "b"; EdgeStmt "a" "b";
      NodeStmt "b" "b()"])%list /\
  count_edges "a" "b" (body (build_dot repeated_call_structure)) <> 1.
Proof.
  split; [reflexivity|]. split; [reflexivity|]. cbv. discriminate.
Qed.

(* ================================================================== *)
(** * Input that cannot be read (C6)                                   *)
(* ================================================================== *)

(** C6, as the code has it.  When the file cannot be read, the run stops
    after the attempt to open it: nothing is parsed, no directory is made,
    the collaborator is not asked and nothing is rendered, and no structure
    is returned.  A missing file ([FileNotFoundError]) makes [analyze]
    return [None] and [main] return; any other error of [open] leaves
    [analyze] and [main] as that exception. *)
Theorem unreadable_input_stops_before_parsing
  (env : Env) (file_path model : string) (e : exn) :
  get_language env "python" = Ok tt ->
  read_text env file_path = Raise e ->
  outcome_of (analyze env file_path) =
    (if is_FileNotFoundError e then Ok None else Raise e) /\
  outcome_of (main env file_path model) =
    (if is_FileNotFoundError e then Ok tt else Raise e) /\
  events_of (main env file_path model) =
    EvPrint (analyzing_line file_path) :: EvOpen file_path ::
    (if is_FileNotFoundError e
     then [EvPrint (file_not_found_line file_path)] else []) /\
  existsb goes_past_reading (events_of (main env file_path model)) = false.
Proof.
  intros Hlang Hread.
  assert (Hmain : main env file_path model [] =
            (if is_FileNotFoundError e then Ok tt else Raise e,
             EvPrint (analyzing_line file_path) :: EvOpen file_path ::
             (if is_FileNotFoundError e
              then [EvPrint (file_not_found_line file_path)] else []))).
  { unfold main, CodeAnalyzer_init, print, bind, try_except, emit, lift.
    rewrite Hlang. cbn [app]. rewrite analyze_cases, Hread.
    now destruct (is_FileNotFoundError e). }
  unfold outcome_of, events_of. rewrite Hmain, analyze_cases, Hread.
  cbn [fst snd].
  destruct (is_FileNotFoundError e); repeat split; reflexivity.
Qed.

Lemma unreadable_input_stops_before_parsing_witness :
  read_text base_env "missing.py" = Raise (FileNotFoundError "missing.py") /\
  outcome_of (analyze base_env "missing.py") = Ok None /\
  outcome_of (main base_env "missing.py" "llama3") = Ok tt.
Proof.
  split; [reflexivity|].
  destruct (unreadable_input_stops_before_parsing base_env "missing.py"
              "llama3" (FileNotFoundError "missing.py") eq_refl eq_refl)
    as (Ha & Hm & _).
  split; [exact Ha | exact Hm].
Defined.

(** C6 as stated fails for a file that exists and cannot be read: [analyze]
    does not return [None], and [main] does not return; both are left by
    the [PermissionError]. *)
Lemma permission_error_leaves_analyze :
  read_text unreadable_env "secret.py" = Raise (PermissionError "secret.py") /\
  outcome_of (analyze unreadable_env "secret.py") <> Ok None /\
  outcome_of (analyze unreadable_env "secret.py") =
    Raise (PermissionError "secret.py") /\
  outcome_of (main unreadable_env "secret.py" "llama3") =
    Raise (PermissionError "secret.py").
Proof.
  split; [reflexivity|]. split; [discriminate|]. split; reflexivity.
Qed.

(* ================================================================== *)
(** * The collaborator's answer (C7)                                   *)
(* ================================================================== *)

(** C7, as the code has it.  [suggest] rejects undecodable text only: when
    [json.loads] raises [JSONDecodeError] on the stripped answer, it echoes
    the raw answer and returns [None].  It checks no field: whatever
    [json.loads] returns for the stripped answer is returned unchanged and
    without any report, be it a document without the three fields, a value
    that is no dict, or [null] (the same [None]); and any other error of
    [json.loads] leaves [suggest]. *)
Theorem suggest_returns_whatever_decodes
  (env : Env) (model : string) (cs : CodeStructure) (response : string) :
  chain_invoke env model cs = Ok response ->
  (forall document,
      json_loads env (strip response) = Ok document ->
      outcome_of (suggest env model cs) = Ok document /\
      events_of (suggest env model cs) = asking_events cs) /\
  (forall msg,
      json_loads env (strip response) = Raise (JSONDecodeError msg) ->
      outcome_of (suggest env model cs) = Ok JNull /\
      events_of (suggest env model cs) =
        (asking_events cs ++ undecodable_lines response)%list) /\
  (forall e,
      json_loads env (strip response) = Raise e ->
      is_JSONDecodeError e = false ->
      outcome_of (suggest env model cs) = Raise e).
Proof.
  intros Hresp. unfold outcome_of, events_of.
  rewrite suggest_cases, Hresp. cbn zeta. split; [|split].
  - intros document ->. split; reflexivity.
  - intros msg ->. split; reflexivity.
  - intros e -> ->. reflexivity.
Qed.

Lemma suggest_returns_whatever_decodes_witness :
  chain_invoke foreign_answer_env "llama3" two_functions_structure
    = Ok foreign_response /\
  outcome_of (suggest foreign_answer_env "llama3" two_functions_structure)
    = Ok (JObject [("foo", JInt 1)]).
Proof.
  split; [reflexivity|].
  exact (proj1 (proj1 (suggest_returns_whatever_decodes foreign_answer_env
                         "llama3" two_functions_structure foreign_response
                         eq_refl)
                      (JObject [("foo", JInt 1)]) eq_refl)).
Defined.

(** C7 as stated fails: the answer [{"foo": 1}] has none of the three
    fields, yet [suggest] returns it as it is and reports nothing. *)
Lemma foreign_document_is_returned :
  outcome_of (suggest foreign_answer_env "llama3" two_functions_structure)
    = Ok (JObject [("foo", JInt 1)]) /\
  outcome_of (suggest foreign_answer_env "llama3" two_functions_structure)
    <> Ok JNull /\
  events_of (suggest foreign_answer_env "llama3" two_functions_structure)
    = asking_events two_functions_structure.
Proof. split; [reflexivity|]. split; [discriminate | reflexivity]. Qed.

(* ================================================================== *)
(** * Rendering a DOT text (C10)                                       *)
(* ================================================================== *)

(** C10, where the renderer rejects the text.  An error of [graph.render]
    other than the missing executable is taken by the handler inside
    [_render_graph]: [generate_from_dot_string] returns normally, and what
    is printed is the renderer's error alone.  The handler of
    [generate_from_dot_string], which prints the DOT text, does not run. *)
Theorem render_error_is_reported_without_the_text
  (env : Env) (output_dir filename : string) (dot_string : json) (e : exn) :
  render env (SourceObj dot_string) (path_join output_dir filename) = Raise e ->
  is_Exception e = true -> is_ExecutableNotFound e = false ->
  outcome_of (generate_from_dot_string env output_dir dot_string filename)
    = Ok tt /\
  events_of (generate_from_dot_string env output_dir dot_string filename)
    = [EvRender (SourceObj dot_string) (path_join output_dir filename);
       EvPrint (render_error_line e)] /\
  forall ev, In ev (invalid_dot_lines e dot_string) ->
             ~ In ev (events_of (generate_from_dot_string env output_dir
                                   dot_string filename)).
Proof.
  intros Hrender Hexc Hnf.
  assert (Hrun : generate_from_dot_string env output_dir dot_string filename [] =
            (Ok tt,
             [EvRender (SourceObj dot_string) (path_join output_dir filename);
              EvPrint (render_error_line e)])).
  { rewrite generate_from_dot_string_cases, render_graph_run. cbn zeta.
    now rewrite Hrender, Hnf, Hexc. }
  unfold outcome_of, events_of. rewrite Hrun. cbn [fst snd].
  split; [reflexivity|]. split; [reflexivity|].
  intros ev Hev Hin. unfold invalid_dot_lines, render_error_line in *.
  simpl in Hev, Hin.
  destruct Hin as [<-|[<-|[]]];
    repeat (destruct Hev as [Hev|Hev]; [discriminate|]); exact Hev.
Qed.

Lemma render_error_is_reported_without_the_text_witness :
  render rejecting_renderer_env (SourceObj (JString "digraph {"))
         (path_join "output" "app_after")
    = Raise (CalledProcessError "syntax error in line 1") /\
  events_of (generate_from_dot_string rejecting_renderer_env "output"
               (JString "digraph {") "app_after")
    = [EvRender (SourceObj (JString "digraph {")) "output/app_after";
       EvPrint (render_error_line (CalledProcessError "syntax error in line 1"))].
Proof.
  split; [reflexivity|].
  exact (proj1 (proj2 (render_error_is_reported_without_the_text
                         rejecting_renderer_env "output" "app_after"
                         (JString "digraph {")
                         (CalledProcessError "syntax error in line 1")
                         eq_refl eq_refl eq_refl))).
Defined.

(** ** Traces only grow *)

Lemma render_graph_from_empty env output_dir g filename tr :
  _render_graph env output_dir g filename tr =
  (fst (_render_graph env output_dir g filename []),
   (tr ++ snd (_render_graph env output_dir g filename []))%list).
Proof.
  rewrite !render_graph_run. cbn zeta.
  destruct (render env g _) as [[]|e]; [reflexivity|].
  destruct (is_ExecutableNotFound e); [reflexivity|].
  now destruct (is_Exception e).
Qed.

Lemma presented_extends env target suggestion tr :
  exists evs, snd (presented env target suggestion tr) = (tr ++ evs)%list.
Proof.
  unfold presented. destruct (negb (truthy suggestion)); [now eexists|].
  destruct suggestion; try now eexists.
  destruct (truthy (fields_get "new_architecture_dot" JNull fields));
    [|now eexists].
  rewrite render_graph_from_empty. cbn [snd].
  repeat rewrite <- app_assoc. now eexists.
Qed.

(** ** Renderer calls of a trace *)




Lemma render_calls_render_graph env output_dir g filename :
  render_calls (snd (_render_graph env output_dir g filename [])) =
  [(g, path_join output_dir filename)].
Proof.
  rewrite render_graph_run. cbn zeta.
  destruct (render env g _) as [[]|e]; [reflexivity|].
  destruct (is_ExecutableNotFound e); [reflexivity|].
  now destruct (is_Exception e).
Qed.

Ltac find_in :=
  match goal with
  | H : In ?x ?l |- In ?x ?l => exact H
  | |- In _ (_ :: _) => (left; reflexivity) || (right; find_in)
  | |- In _ (_ ++ _)%list =>
      apply in_or_app; ((left; find_in) || (right; find_in))
  end.

(* ================================================================== *)
(** * How a run of [main] ends                                         *)
(* ================================================================== *)

Lemma analyze_success_run env file_path code cs :
  read_text env file_path = Ok code ->
  outcome_of (analyze env file_path) = Ok (Some cs) ->
  forall tr, analyze env file_path tr =
             (Ok (Some cs), (tr ++ [EvOpen file_path; EvParse code])%list).
Proof.
  intros Hread Hcs tr. unfold outcome_of in Hcs.
  rewrite analyze_cases, Hread in *. cbn [fst] in Hcs. now rewrite Hcs.
Qed.

(** X1.  When the grammar cannot be loaded, [main] ends the process with
    exit status 1 after its first line and the two lines of the
    constructor: the file is not even opened. *)
Theorem grammar_failure_ends_the_run
  (env : Env) (file_path model : string) (e : exn) :
  get_language env "python" = Raise e -> is_Exception e = true ->
  outcome_of (main env file_path model) = Raise (SystemExit 1) /\
  events_of (main env file_path model) =
    EvPrint (analyzing_line file_path) :: language_error_lines e.
Proof.
  intros Hlang Hexc. unfold outcome_of, events_of.
  rewrite main_cases, Hlang, Hexc. split; reflexivity.
Qed.

Section MainRun.

Variable env : Env.
Variables file_path model code : string.
Variable cs : CodeStructure.
Hypothesis Hlang : get_language env "python" = Ok tt.
Hypothesis Hread : read_text env file_path = Ok code.
Hypothesis Hanalyze : outcome_of (analyze env file_path) = Ok (Some cs).

Lemma main_after_analysis :
  main env file_path model [] =
  match mkdir env "output" with
  | Raise e =>
      (Raise e, (analysis_events file_path code cs ++ [EvMkdir "output"])%list)
  | Ok _ =>
      match _render_graph env "output" (DigraphObj (build_dot cs))
              (stem env file_path ++ "_before")
              (analysis_events file_path code cs
                 ++ [EvMkdir "output"; before_line])%list with
      | (Raise e, tr2) => (Raise e, tr2)
      | (Ok _, tr2) =>
          match ChatOllama env model with
          | Raise e =>
              if is_Exception e
              then (Raise (SystemExit 1), (tr2 ++ model_error_lines model e)%list)
              else (Raise e, tr2)
          | Ok _ =>
              match suggest env model cs tr2 with
              | (Raise e, tr3) => (Raise e, tr3)
              | (Ok suggestion, tr3) =>
                  presented env (stem env file_path) suggestion tr3
              end
          end
      end
  end.
Proof.
  rewrite main_cases, Hlang. cbn zeta.
  rewrite (analyze_success_run _ _ _ _ Hread Hanalyze).
  unfold analysis_events. cbn [app]. repeat rewrite <- app_assoc.
  reflexivity.
Qed.

(** X2.  An error while making the output directory is not handled: it
    leaves [main] right after the attempt, before anything is rendered and
    before the collaborator is asked. *)
Theorem output_directory_error_leaves_main (e : exn) :
  mkdir env "output" = Raise e ->
  outcome_of (main env file_path model) = Raise e /\
  events_of (main env file_path model) =
    (analysis_events file_path code cs ++ [EvMkdir "output"])%list.
Proof.
  intros Hmk. unfold outcome_of, events_of.
  rewrite main_after_analysis, Hmk. split; reflexivity.
Qed.

Hypothesis Hmkdir : mkdir env "output" = Ok tt.

(** X3.  When the Graphviz executable is missing, the "before" diagram
    ends the whole run with exit status 1: the installation hints are the
    last lines, and the collaborator is never asked. *)
Theorem missing_graphviz_ends_the_run :
  render env (DigraphObj (build_dot cs)) (before_path env file_path)
    = Raise ExecutableNotFound ->
  outcome_of (main env file_path model) = Raise (SystemExit 1) /\
  events_of (main env file_path model) =
    (analysis_events file_path code cs
       ++ [EvMkdir "output"; before_line;
           EvRender (DigraphObj (build_dot cs)) (before_path env file_path)]
       ++ not_found_lines)%list /\
  asked (events_of (main env file_path model)) = false.
Proof.
  intros Hrender.
  assert (Hrun : main env file_path model [] =
            (Raise (SystemExit 1),
             (analysis_events file_path code cs
                ++ [EvMkdir "output"; before_line;
                    EvRender (DigraphObj (build_dot cs)) (before_path env file_path)]
                ++ not_found_lines)%list)).
  { rewrite main_after_analysis, Hmkdir, render_graph_run. cbn zeta.
    fold (before_path env file_path). rewrite Hrender. cbn [is_ExecutableNotFound].
    now rewrite <- app_assoc. }
  unfold outcome_of, events_of. rewrite Hrun. cbn [fst snd].
  split; [reflexivity|]. split; reflexivity.
Qed.

(** X4.  Any other failure of the renderer on the "before" diagram is
    reported and the run goes on: with the model set up, the collaborator is
    still asked about the structure. *)
Theorem failed_before_diagram_does_not_stop_the_run (e : exn) :
  render env (DigraphObj (build_dot cs)) (before_path env file_path) = Raise e ->
  is_Exception e = true -> is_ExecutableNotFound e = false ->
  ChatOllama env model = Ok tt ->
  In (EvPrint (render_error_line e)) (events_of (main env file_path model)) /\
  In (EvInvoke cs) (events_of (main env file_path model)).
Proof.
  intros Hrender Hexc Hnf Hmodel. unfold events_of.
  rewrite main_after_analysis, Hmkdir, render_graph_run. cbn zeta.
  fold (before_path env file_path). rewrite Hrender, Hnf, Hexc, Hmodel.
  rewrite suggest_cases. cbn zeta.
  destruct (chain_invoke env model cs) as [response|e1];
    [|cbn [snd]; split; find_in].
  destruct (json_loads env (strip response)) as [v|e1];
    [|destruct (is_JSONDecodeError e1); [|cbn [snd]; split; find_in]].
  - destruct (presented_extends env (stem env file_path) v
                (((analysis_events file_path code cs
                     ++ [EvMkdir "output"; before_line])
                    ++ [EvRender (DigraphObj (build_dot cs))
                          (before_path env file_path);
                        EvPrint (render_error_line e)])
                   ++ [EvPrint [Lit (nl ++ "Asking the AI architect for refactoring suggestions...")];
                       EvInvoke cs])%list) as [evs ->].
    split; find_in.
  - match goal with
    | |- context [presented ?a ?b ?c ?d] =>
        destruct (presented_extends a b c d) as [evs ->]
    end.
    split; find_in.
Qed.

Hypothesis Hbefore :
  render env (DigraphObj (build_dot cs)) (before_path env file_path) = Ok tt.

Lemma main_after_before_diagram :
  main env file_path model [] =
  let tr2 := (analysis_events file_path code cs
                ++ before_events env file_path cs)%list in
  match ChatOllama env model with
  | Raise e =>
      if is_Exception e
      then (Raise (SystemExit 1), (tr2 ++ model_error_lines model e)%list)
      else (Raise e, tr2)
  | Ok _ =>
      match chain_invoke env model cs with
      | Raise e => (Raise e, (tr2 ++ asking_events cs)%list)
      | Ok response =>
          match json_loads env (strip response) with
          | Ok suggestion =>
              presented env (stem env file_path) suggestion
                (tr2 ++ asking_events cs)%list
          | Raise e =>
              if is_JSONDecodeError e then
                presented env (stem env file_path) JNull
                  (tr2 ++ asking_events cs ++ undecodable_lines response)%list
              else (Raise e, (tr2 ++ asking_events cs)%list)
          end
      end
  end.
Proof.
  rewrite main_after_analysis, Hmkdir, render_graph_run. cbn zeta.
  fold (before_path env file_path). rewrite Hbefore.
  unfold before_events. repeat rewrite <- app_assoc. cbn [app].
  destruct (ChatOllama env model) as [[]|e]; [|reflexivity].
  rewrite suggest_cases. cbn zeta. unfold asking_events, asking_line.
  repeat rewrite <- app_assoc. cbn [app].
  destruct (chain_invoke env model cs) as [response|e]; [|reflexivity].
  destruct (json_loads env (strip response)) as [v|e]; [reflexivity|].
  destruct (is_JSONDecodeError e); [|reflexivity].
  repeat rewrite <- app_assoc. reflexivity.
Qed.

(** X5.  When the model cannot be set up, [main] ends the process with
    exit status 1; by then the "before" diagram has been rendered, and the
    collaborator is not asked. *)
Theorem model_failure_ends_the_run_after_the_before_diagram (e : exn) :
  ChatOllama env model = Raise e -> is_Exception e = true ->
  outcome_of (main env file_path model) = Raise (SystemExit 1) /\
  events_of (main env file_path model) =
    (analysis_events file_path code cs ++ before_events env file_path cs
       ++ model_error_lines model e)%list.
Proof.
  intros Hmodel Hexc. unfold outcome_of, events_of.
  rewrite main_after_before_diagram. cbn zeta. rewrite Hmodel, Hexc.
  cbn [fst snd]. rewrite <- app_assoc. split; reflexivity.
Qed.

Hypothesis Hmodel : ChatOllama env model = Ok tt.

(** X6.  An error of the collaborator call itself is not handled by
    [suggest] nor by [main]: it leaves the run right after the request. *)
Theorem collaborator_error_leaves_main (e : exn) :
  chain_invoke env model cs = Raise e ->
  outcome_of (main env file_path model) = Raise e /\
  events_of (main env file_path model) =
    (analysis_events file_path code cs ++ before_events env file_path cs
       ++ asking_events cs)%list.
Proof.
  intros Hinvoke. unfold outcome_of, events_of.
  rewrite main_after_before_diagram. cbn zeta. rewrite Hmodel, Hinvoke.
  cbn [fst snd]. rewrite <- app_assoc. split; reflexivity.
Qed.

Variable response : string.
Hypothesis Hanswer : chain_invoke env model cs = Ok response.




Variable fs : list (string * json).
Hypothesis Hjson : json_loads env (strip response) = Ok (JObject fs).
Hypothesis Hfields : fs <> [].




End MainRun.

Lemma grammar_failure_ends_the_run_witness :
  get_language no_grammar_env "python" = Raise no_grammar /\
  outcome_of (main no_grammar_env "app.py" "llama3") = Raise (SystemExit 1).
Proof.
  split; [reflexivity|].
  exact (proj1 (grammar_failure_ends_the_run no_grammar_env "app.py" "llama3"
                  no_grammar eq_refl eq_refl)).
Defined.

Lemma output_directory_error_leaves_main_witness :
  mkdir no_output_dir_env "output" = Raise no_output_dir /\
  outcome_of (main no_output_dir_env "app.py" "llama3") = Raise no_output_dir.
Proof.
  split; [reflexivity|].
  exact (proj1 (output_directory_error_leaves_main no_output_dir_env "app.py"
                  "llama3" two_functions_source two_functions_structure
                  eq_refl eq_refl eq_refl no_output_dir eq_refl)).
Defined.

Lemma missing_graphviz_ends_the_run_witness :
  render no_graphviz_env (DigraphObj (build_dot two_functions_structure))
         (before_path no_graphviz_env "app.py") = Raise ExecutableNotFound /\
  outcome_of (main no_graphviz_env "app.py" "llama3") = Raise (SystemExit 1).
Proof.
  split; [reflexivity|].
  exact (proj1 (missing_graphviz_ends_the_run no_graphviz_env "app.py"
                  "llama3" two_functions_source two_functions_structure
                  eq_refl eq_refl eq_refl eq_refl eq_refl)).
Defined.

Lemma failed_before_diagram_does_not_stop_the_run_witness :
  render failing_renderer_env (DigraphObj (build_dot two_functions_structure))
         (before_path failing_renderer_env "app.py") = Raise dot_failed /\
  In (EvInvoke two_functions_structure)
     (events_of (main failing_renderer_env "app.py" "llama3")).
Proof.
  split; [reflexivity|].
  exact (proj2 (failed_before_diagram_does_not_stop_the_run
                  failing_renderer_env "app.py" "llama3" two_functions_source
                  two_functions_structure eq_refl eq_refl eq_refl eq_refl
                  dot_failed eq_refl eq_refl eq_refl eq_refl)).
Defined.

Lemma model_failure_ends_the_run_after_the_before_diagram_witness :
  ChatOllama no_model_env "llama3" = Raise no_model /\
  outcome_of (main no_model_env "app.py" "llama3") = Raise (SystemExit 1).
Proof.
  split; [reflexivity|].
  exact (proj1 (model_failure_ends_the_run_after_the_before_diagram
                  no_model_env "app.py" "llama3" two_functions_source
                  two_functions_structure eq_refl eq_refl eq_refl eq_refl
                  eq_refl no_model eq_refl eq_refl)).
Defined.

Lemma collaborator_error_leaves_main_witness :
  chain_invoke no_answer_env "llama3" two_functions_structure = Raise no_answer /\
  outcome_of (main no_answer_env "app.py" "llama3") = Raise no_answer.
Proof.
  split; [reflexivity|].
  exact (proj1 (collaborator_error_leaves_main no_answer_env "app.py" "llama3"
                  two_functions_source two_functions_structure
                  eq_refl eq_refl eq_refl eq_refl eq_refl eq_refl
                  no_answer eq_refl)).
Defined.






(* ================================================================== *)
(** * What [analyze] records                                           *)
(* ================================================================== *)

Lemma filter_filter_and {A : Type} (p q : A -> bool) l :
  filter p (filter q l) = filter (fun x => p x && q x) l.
Proof.
  induction l as [|x l IH]; simpl; [reflexivity|].
  destruct (q x) eqn:Eq; simpl.
  - destruct (p x); simpl; now rewrite IH.
  - now rewrite andb_false_r.
Qed.

Lemma str_in_app x xs ys : str_in x (xs ++ ys) = str_in x xs || str_in x ys.
Proof. unfold str_in. apply existsb_app. Qed.

Lemma str_in_contains {V : Type} x (d : PyDict.t V) :
  str_in x (PyDict.keys d) = PyDict.contains x d.
Proof.
  unfold str_in, PyDict.contains, PyDict.keys.
  induction d as [|[k v] d IH]; simpl; [reflexivity|].
  destruct (x =? k); [reflexivity | exact IH].
Qed.

(** The keys after the first loop: those before it, then the new names in
    the order of their first capture. *)
Lemma register_functions_keys_order caps : forall fs,
  PyDict.keys (register_functions caps fs) =
  (PyDict.keys fs ++
   filter (fun n => negb (str_in n (PyDict.keys fs)))
          (first_occurrences (defined_names caps)))%list.
Proof.
  unfold register_functions, defined_names.
  induction caps as [|c caps IH]; intros fs; cbn [fold_left filter].
  - simpl. now rewrite app_nil_r.
  - rewrite IH. unfold register_function, is_name_capture.
    destruct (tag c =? "function.name"); [|reflexivity].
    cbn [map first_occurrences filter].
    rewrite filter_filter_and.
    destruct (PyDict.contains (text c) fs) eqn:Hin.
    + rewrite PyDictFacts.keys_set_present by assumption.
      rewrite str_in_contains, Hin. cbn [negb]. f_equal.
      apply filter_ext_in. intros m _.
      destruct (m =? text c) eqn:E; [|now rewrite andb_true_r].
      apply String.eqb_eq in E. subst m.
      now rewrite str_in_contains, Hin.
    + rewrite PyDictFacts.keys_set_absent by assumption.
      rewrite str_in_contains, Hin. cbn [negb]. rewrite <- app_assoc.
      cbn [app]. do 2 f_equal. apply filter_ext. intros m.
      rewrite str_in_app. unfold str_in at 2. cbn [existsb].
      rewrite orb_false_r, negb_orb. reflexivity.
Qed.

Lemma filter_all {A : Type} (l : list A) : filter (fun _ => true) l = l.
Proof. induction l as [|x l IH]; simpl; [reflexivity | now rewrite IH]. Qed.

(** X12.  The function entries of the structure come in the order in
    which the names were first captured by the definition query; a name
    captured again keeps the place of its first capture. *)
Theorem entries_follow_first_definitions
  (env : Env) (file_path code : string) (func_caps call_caps : list Capture) :
  read_text env file_path = Ok code ->
  captures env (TreeOf code) func_query = Ok func_caps ->
  captures env (TreeOf code) call_query = Ok call_caps ->
  exists cs,
    outcome_of (analyze env file_path) = Ok (Some cs) /\
    PyDict.keys (functions cs) = first_occurrences (defined_names func_caps).
Proof.
  intros Hread Hfunc Hcall.
  destruct (build_structure_ok func_caps call_caps) as (cur & fs & _ & Hb & Hk & _).
  eexists. split.
  { unfold outcome_of. rewrite (analyze_run _ _ _ _ _ Hread Hfunc Hcall), Hb.
    reflexivity. }
  cbn [functions]. rewrite Hk, register_functions_keys_order.
  cbn. apply filter_all.
Qed.

Lemma entries_follow_first_definitions_witness :
  read_text two_functions_env "app.py" = Ok two_functions_source /\
  exists cs,
    outcome_of (analyze two_functions_env "app.py") = Ok (Some cs) /\
    PyDict.keys (functions cs) = ["a"; "b"].
Proof.
  split; [reflexivity|].
  exact (entries_follow_first_definitions two_functions_env "app.py"
           two_functions_source [name_capture "a"; name_capture "b"]
           [name_capture "a"; callee_capture "b"]
           eq_refl eq_refl eq_refl).
Defined.

(** X13.  The calls recorded for a defined function are the callee names
    captured while it was the current function, in capture order: each
    callee capture goes to the name of the latest function-name capture
    before it, and to no entry when that name is empty or there is none.
    A name that is not defined has no entry. *)
Theorem calls_go_to_the_latest_function_name
  (env : Env) (file_path code : string) (func_caps call_caps : list Capture) :
  read_text env file_path = Ok code ->
  captures env (TreeOf code) func_query = Ok func_caps ->
  captures env (TreeOf code) call_query = Ok call_caps ->
  exists cs,
    outcome_of (analyze env file_path) = Ok (Some cs) /\
    (forall f, In (name_capture f) func_caps ->
               calls_of f (functions cs) = Some (calls_under f None call_caps)) /\
    (forall f, ~ In (name_capture f) func_caps ->
               calls_of f (functions cs) = None).
Proof.
  intros Hread Hfunc Hcall.
  destruct (build_structure_calls func_caps call_caps)
    as (cs & Hb & _ & _ & _ & Hkeys & Hcalls).
  exists cs. split; [|split].
  - unfold outcome_of. rewrite (analyze_run _ _ _ _ _ Hread Hfunc Hcall), Hb.
    reflexivity.
  - exact Hcalls.
  - intros f Hf. unfold calls_of.
    destruct (PyDict.get f (functions cs)) as [entry|] eqn:E; [|reflexivity].
    exfalso. apply Hf, Hkeys, PyDictFacts.contains_In_keys.
    unfold PyDict.contains. now rewrite E.
Qed.

Lemma calls_go_to_the_latest_function_name_witness :
  read_text nested_env "app.py" = Ok nested_source /\
  exists cs,
    outcome_of (analyze nested_env "app.py") = Ok (Some cs) /\
    calls_of "inner" (functions cs) = Some ["b"; "c"].
Proof.
  split; [reflexivity|].
  destruct (calls_go_to_the_latest_function_name nested_env "app.py"
              nested_source [name_capture "outer"; name_capture "inner"]
              [name_capture "outer"; callee_capture "a";
               name_capture "inner"; callee_capture "b"; callee_capture "c"]
              eq_refl eq_refl eq_refl) as (cs & Hcs & Hcalls & _).
  exists cs. split; [exact Hcs|].
  exact (Hcalls "inner" (or_intror (or_introl eq_refl))).
Defined.

Lemma calls_under_elsewhere f g cs :
  g <> f -> forallb is_callee cs = true ->
  calls_under f (Some g) cs = [] /\
  fold_left current_after cs (Some g) = Some g.
Proof.
  intros Hne. induction cs as [|c cs IH]; simpl; [tauto|].
  intros H. apply andb_prop in H. destruct H as [Hc Hcs].
  unfold recorded_under, current_after. rewrite Hc.
  apply String.eqb_neq in Hne. rewrite Hne, andb_false_r. cbn [andb app].
  destruct (tag c =? "function.name") eqn:E.
  - apply String.eqb_eq in E. rewrite (is_callee_not_name _ E) in Hc. discriminate.
  - destruct (IH Hcs) as [Hcalls Hcur]. split; [exact Hcalls | exact Hcur].
Qed.

(** X14.  A definition met inside the body of another takes over: the
    calls captured after the name of the inner function, up to the next
    function name, are all recorded for the inner function, also those that
    stand in the outer body after the inner definition. *)
Theorem inner_definition_takes_the_following_calls
  (env : Env) (file_path code outer inner : string)
  (func_caps before after : list Capture) :
  read_text env file_path = Ok code ->
  captures env (TreeOf code) func_query = Ok func_caps ->
  captures env (TreeOf code) call_query =
    Ok (name_capture outer :: before ++ name_capture inner :: after)%list ->
  In (name_capture outer) func_caps -> In (name_capture inner) func_caps ->
  outer <> "" -> inner <> "" -> outer <> inner ->
  forallb is_callee before = true -> forallb is_callee after = true ->
  exists cs,
    outcome_of (analyze env file_path) = Ok (Some cs) /\
    calls_of outer (functions cs) = Some (map text before) /\
    calls_of inner (functions cs) = Some (map text after).
Proof.
  intros Hread Hfunc Hcall Ho Hi Hone Hine Hne Hb Ha.
  destruct (build_structure_calls func_caps
              (name_capture outer :: before ++ name_capture inner :: after))
    as (cs & Hbuild & _ & _ & _ & _ & Hcalls).
  exists cs. split; [|split].
  - unfold outcome_of. rewrite (analyze_run _ _ _ _ _ Hread Hfunc Hcall), Hbuild.
    reflexivity.
  - rewrite (Hcalls outer Ho). f_equal.
    cbn [calls_under]. unfold recorded_under at 1. cbn.
    rewrite calls_under_app.
    destruct (calls_under_callees outer before Hone Hb) as [-> ->].
    cbn [calls_under]. unfold recorded_under at 1. cbn.
    assert (Hne' : inner <> outer) by congruence.
    destruct (calls_under_elsewhere outer inner after Hne' Ha) as [-> _].
    now rewrite app_nil_r.
  - rewrite (Hcalls inner Hi). f_equal.
    cbn [calls_under]. unfold recorded_under at 1. cbn.
    rewrite calls_under_app.
    destruct (calls_under_elsewhere inner outer before Hne Hb) as [-> ->].
    cbn [calls_under app]. unfold recorded_under at 1. cbn.
    now destruct (calls_under_callees inner after Hine Ha) as [-> _].
Qed.

Lemma inner_definition_takes_the_following_calls_witness :
  "outer" <> "inner" /\
  exists cs,
    outcome_of (analyze nested_env "app.py") = Ok (Some cs) /\
    calls_of "outer" (functions cs) = Some ["a"] /\
    calls_of "inner" (functions cs) = Some ["b"; "c"].
Proof.
  assert (Hne : "outer" <> "inner") by discriminate.
  split; [exact Hne|].
  assert (Ho : "outer" <> "") by discriminate.
  assert (Hi : "inner" <> "") by discriminate.
  exact (inner_definition_takes_the_following_calls nested_env "app.py"
           nested_source "outer" "inner"
           [name_capture "outer"; name_capture "inner"]
           [callee_capture "a"] [callee_capture "b"; callee_capture "c"]
           eq_refl eq_refl eq_refl (or_introl eq_refl)
           (or_intror (or_introl eq_refl)) Ho Hi Hne eq_refl eq_refl).
Defined.

Lemma register_functions_filter caps : forall fs,
  register_functions (filter is_name_capture caps) fs =
  register_functions caps fs.
Proof.
  unfold register_functions.
  induction caps as [|c caps IH]; intros fs; [reflexivity|].
  cbn [filter fold_left]. unfold is_name_capture at 1.
  destruct (tag c =? "function.name") eqn:E; cbn [fold_left].
  - apply IH.
  - replace (register_function fs c) with fs
      by (unfold register_function; now rewrite E).
    apply IH.
Qed.

Lemma record_call_irrelevant st c :
  is_relevant c = false -> record_call st c = Ok st.
Proof.
  unfold is_relevant, is_name_capture, is_callee. intros H.
  apply orb_false_elim in H. destruct H as [Hn Hc].
  destruct st as [cur fs]. unfold record_call. now rewrite Hn, Hc.
Qed.

Lemma record_calls_filter caps : forall st,
  record_calls (filter is_relevant caps) st = record_calls caps st.
Proof.
  unfold record_calls.
  induction caps as [|c caps IH]; intros st; [reflexivity|].
  cbn [filter]. destruct (is_relevant c) eqn:E; cbn [fold_result].
  - destruct (record_call st c); cbn [rbind]; [apply IH | reflexivity].
  - rewrite (record_call_irrelevant st c E). cbn [rbind]. apply IH.
Qed.

(** X15.  Captures under any other tag (the call query also yields the
    call nodes, tagged [call]) change nothing: [analyze] returns the
    structure it builds from the function-name captures of the definition
    query and the function-name and callee captures of the call query. *)
Theorem other_captures_are_ignored
  (env : Env) (file_path code : string) (func_caps call_caps : list Capture) :
  read_text env file_path = Ok code ->
  captures env (TreeOf code) func_query = Ok func_caps ->
  captures env (TreeOf code) call_query = Ok call_caps ->
  exists cs,
    outcome_of (analyze env file_path) = Ok (Some cs) /\
    build_structure (filter is_name_capture func_caps)
                    (filter is_relevant call_caps) = Ok cs.
Proof.
  intros Hread Hfunc Hcall.
  destruct (build_structure_ok func_caps call_caps) as (cur & fs & _ & Hb & _).
  eexists. split.
  { unfold outcome_of. rewrite (analyze_run _ _ _ _ _ Hread Hfunc Hcall), Hb.
    reflexivity. }
  rewrite <- Hb. unfold build_structure.
  now rewrite register_functions_filter, record_calls_filter.
Qed.

Lemma other_captures_are_ignored_witness :
  read_text call_nodes_env "app.py" = Ok two_functions_source /\
  outcome_of (analyze call_nodes_env "app.py") = Ok (Some two_functions_structure).
Proof.
  split; [reflexivity|].
  destruct (other_captures_are_ignored call_nodes_env "app.py"
              two_functions_source [name_capture "a"; name_capture "b"]
              [name_capture "a"; {| text := "b()"; tag := "call" |};
               callee_capture "b"]
              eq_refl eq_refl eq_refl) as (cs & Hcs & Hb).
  rewrite Hcs. injection Hb as <-. reflexivity.
Defined.

(** X16.  [analyze] has three ways to end.  It returns [None] exactly
    when the file is missing; it raises exactly the errors of the outside
    (another error of [open] or [read], or an error of one of the two
    queries), never one of its own; in every other case it returns a
    structure. *)
Theorem analyze_ends_in_three_ways (env : Env) (file_path : string) :
  (outcome_of (analyze env file_path) = Ok None <->
   exists e, read_text env file_path = Raise e /\ is_FileNotFoundError e = true) /\
  (forall e,
      outcome_of (analyze env file_path) = Raise e <->
      (read_text env file_path = Raise e /\ is_FileNotFoundError e = false) \/
      (exists code,
          read_text env file_path = Ok code /\
          (captures env (TreeOf code) func_query = Raise e \/
           exists func_caps,
             captures env (TreeOf code) func_query = Ok func_caps /\
             captures env (TreeOf code) call_query = Raise e))) /\
  (forall code func_caps call_caps,
      read_text env file_path = Ok code ->
      captures env (TreeOf code) func_query = Ok func_caps ->
      captures env (TreeOf code) call_query = Ok call_caps ->
      exists cs, outcome_of (analyze env file_path) = Ok (Some cs)).
Proof.
  unfold outcome_of. rewrite analyze_cases.
  destruct (read_text env file_path) as [code|e0] eqn:Hread.
  - cbn [fst].
    destruct (captures env (TreeOf code) func_query) as [fc|e1] eqn:Hf.
    + destruct (captures env (TreeOf code) call_query) as [cc|e2] eqn:Hc.
      * destruct (build_structure_ok fc cc) as (cur & fs & _ & -> & _).
        split; [|split].
        -- split; [discriminate | intros (e & He & _); discriminate].
        -- intros e. split; [discriminate|].
           intros [[He _]|(code' & Hcode & [He|(fc' & Hfc & He)])];
             try discriminate; injection Hcode as <-; congruence.
        -- intros code' fc' cc' H1 H2 H3. now eexists.
      * split; [|split].
        -- split; [discriminate | intros (e & He & _); discriminate].
        -- intros e. split.
           ++ intros [= <-]. right. exists code. split; [reflexivity|].
              right. now exists fc.
           ++ intros [[He _]|(code' & Hcode & [He|(fc' & Hfc & He)])];
                try discriminate; injection Hcode as <-; congruence.
        -- intros code' fc' cc' H1 H2 H3. injection H1 as <-. congruence.
    + split; [|split].
      * split; [discriminate | intros (e & He & _); discriminate].
      * intros e. split.
        -- intros [= <-]. right. exists code. split; [reflexivity|]. now left.
        -- intros [[He _]|(code' & Hcode & [He|(fc' & Hfc & He)])];
             try discriminate; injection Hcode as <-; congruence.
      * intros code' fc' cc' H1 H2 H3. injection H1 as <-. congruence.
  - destruct (is_FileNotFoundError e0) eqn:Hfnf; cbn [fst]; split; [|split| |split].
    + split; [intros _; now exists e0 | reflexivity].
    + intros e. split; [discriminate|].
      intros [[He Hn]|(code' & Hcode & _)]; [|discriminate].
      injection He as <-. congruence.
    + intros code' fc' cc' H1. discriminate.
    + split; [discriminate|]. intros (e & He & Hn). injection He as <-. congruence.
    + intros e. split.
      * intros [= <-]. left. now split.
      * intros [[He _]|(code' & Hcode & _)]; [congruence | discriminate].
    + intros code' fc' cc' H1. discriminate.
Qed.

(** X26.  Callee captures that the call query yields before its first
    function-name capture are dropped by the second loop: the structure is
    the one built without them.  They are not kept in [global_calls]
    either: that list and [classes] are empty in the structure, and the
    calls of each defined function are those booked under it by the rest
    of the captures. *)
Theorem calls_before_any_function_name_are_dropped
  (func_caps prefix rest : list Capture) :
  Forall (fun c => tag c <> "function.name") prefix ->
  build_structure func_caps (prefix ++ rest)%list
    = build_structure func_caps rest /\
  exists cs,
    build_structure func_caps (prefix ++ rest)%list = Ok cs /\
    classes cs = PyDict.empty /\
    global_calls cs = [] /\
    forall f, In (name_capture f) func_caps ->
              calls_of f (functions cs) = Some (calls_under f None rest).
Proof.
  intros Hprefix.
  assert (Heq : build_structure func_caps (prefix ++ rest)%list
                = build_structure func_caps rest).
  { unfold build_structure.
    now rewrite (record_calls_skip_prefix _ _ _ Hprefix). }
  split; [exact Heq|]. rewrite Heq.
  destruct (build_structure_calls func_caps rest)
    as (cs & Hb & Hc & Hg & _ & _ & Hcalls).
  exists cs. auto.
Qed.

Lemma calls_before_any_function_name_are_dropped_witness :
  Forall (fun c => tag c <> "function.name") [callee_capture "setup"] /\
  build_structure [name_capture "main"]
    [callee_capture "setup"; name_capture "main"; callee_capture "run"]
  = Ok {| functions := [("main", {| calls := Some ["run"] |})];
          classes := PyDict.empty;
          global_calls := [] |}.
Proof.
  assert (H : Forall (fun c => tag c <> "function.name")
                     [callee_capture "setup"])
    by (repeat constructor; discriminate).
  split; [exact H|].
  exact (eq_trans
           (proj1 (calls_before_any_function_name_are_dropped
                     [name_capture "main"] [callee_capture "setup"]
                     [name_capture "main"; callee_capture "run"] H))
           eq_refl).
Defined.

(** X27.  An error of the call query is handled nowhere: it leaves
    [analyze], and then [main], right after the file is parsed, whatever
    the definition query found.  Nothing of a structure is printed, no
    output directory is made, nothing is rendered and the collaborator is
    not asked. *)
Theorem call_query_error_leaves_main
  (env : Env) (file_path model code : string) (func_caps : list Capture)
  (e : exn) :
  get_language env "python" = Ok tt ->
  read_text env file_path = Ok code ->
  captures env (TreeOf code) func_query = Ok func_caps ->
  captures env (TreeOf code) call_query = Raise e ->
  outcome_of (analyze env file_path) = Raise e /\
  outcome_of (main env file_path model) = Raise e /\
  events_of (main env file_path model) =
    [EvPrint (analyzing_line file_path); EvOpen file_path; EvParse code].
Proof.
  intros Hlang Hread Hfunc Hcall.
  assert (Hrun : forall tr,
             analyze env file_path tr =
             (Raise e, (tr ++ [EvOpen file_path; EvParse code])%list)).
  { intros tr. now rewrite analyze_cases, Hread, Hfunc, Hcall. }
  unfold outcome_of, events_of. rewrite main_cases, Hlang. cbn zeta.
  rewrite !Hrun. repeat split; reflexivity.
Qed.

Lemma call_query_error_leaves_main_witness :
  captures twice_defined_env (TreeOf twice_defined_source) call_query
    = Raise query_rejected /\
  outcome_of (main twice_defined_env "app.py" "llama3") = Raise query_rejected.
Proof.
  split; [reflexivity|].
  exact (proj1 (proj2 (call_query_error_leaves_main twice_defined_env "app.py"
                         "llama3" twice_defined_source
                         [name_capture "f"; name_capture "f"] query_rejected
                         eq_refl eq_refl eq_refl eq_refl))).
Defined.

(* ================================================================== *)
(** * The shape of the "before" graph                                  *)
(* ================================================================== *)

Lemma filter_is_node_edges func l :
  filter is_node (map (EdgeStmt func) l) = [].
Proof. induction l as [|x l IH]; simpl; [reflexivity | exact IH]. Qed.

Lemma nodes_of_items fs items :
  filter is_node (flat_map (function_stmts fs) items) =
  map node_of (PyDict.keys items).
Proof.
  unfold PyDict.keys.
  induction items as [|[k d] items IH]; [reflexivity|].
  cbn [flat_map map fst]. rewrite filter_app, IH.
  unfold function_stmts. cbn [filter is_node fst snd].
  now rewrite filter_is_node_edges.
Qed.

(** X17.  The graph has one node for each function entry, in the order
    of the mapping, named by the function and labelled [name()]; there is
    no other node. *)
Theorem one_node_per_function_in_order (cs : CodeStructure) :
  filter is_node (body (build_dot cs)) =
  map node_of (PyDict.keys (functions cs)).
Proof.
  rewrite build_dot_body, filter_app.
  cbn [header_stmts filter is_node app].
  apply nodes_of_items.
Qed.

Lemma In_node_build_dot cs k :
  In k (PyDict.keys (functions cs)) -> In (node_of k) (body (build_dot cs)).
Proof.
  intros H. apply (in_map node_of) in H.
  rewrite <- (nodes_of_items (functions cs)) in H.
  apply filter_In in H. destruct H as [H _].
  rewrite build_dot_body. apply in_or_app. now right.
Qed.

(** X18.  Every edge of the graph joins two of its nodes: the tail is a
    function of the mapping and so is the head, and each has its node
    statement in the body. *)
Theorem edges_join_drawn_nodes (cs : CodeStructure) (tail head : string) :
  In (EdgeStmt tail head) (body (build_dot cs)) ->
  In (node_of tail) (body (build_dot cs)) /\
  In (node_of head) (body (build_dot cs)).
Proof.
  intros H. apply In_edge_build_dot in H.
  destruct H as ((details & Hin & _) & Hhead). split.
  - apply In_node_build_dot. unfold PyDict.keys, PyDict.items in *.
    change tail with (fst (tail, details)). now apply in_map.
  - apply In_node_build_dot. now apply PyDictFacts.contains_In_keys.
Qed.

Lemma edges_join_drawn_nodes_witness :
  In (EdgeStmt "a" "b") (body (build_dot two_functions_structure)) /\
  In (node_of "b") (body (build_dot two_functions_structure)).
Proof.
  assert (H : In (EdgeStmt "a" "b") (body (build_dot two_functions_structure)))
    by (cbv; tauto).
  split; [exact H|].
  exact (proj2 (edges_join_drawn_nodes two_functions_structure "a" "b" H)).
Defined.

Lemma heads_from_app a xs ys :
  heads_from a (xs ++ ys)%list = (heads_from a xs ++ heads_from a ys)%list.
Proof. unfold heads_from. apply flat_map_app. Qed.

Lemma heads_from_edges_same a l : heads_from a (map (EdgeStmt a) l) = l.
Proof.
  unfold heads_from. induction l as [|x l IH]; simpl; [reflexivity|].
  rewrite String.eqb_refl. simpl. now rewrite IH.
Qed.

Lemma heads_from_edges_other a k l :
  k <> a -> heads_from a (map (EdgeStmt k) l) = [].
Proof.
  intros Hk. apply String.eqb_neq in Hk. unfold heads_from.
  induction l as [|x l IH]; simpl; [reflexivity|]. now rewrite Hk.
Qed.

Lemma heads_from_items fs a items :
  NoDup (PyDict.keys items) ->
  heads_from a (flat_map (function_stmts fs) items) =
  match PyDict.get a items with
  | Some details =>
      filter (fun call => PyDict.contains call fs) (calls_or_empty details)
  | None => []
  end.
Proof.
  induction items as [|[k d] items IH]; intros Hnd; [reflexivity|].
  inversion Hnd as [|? ? Hnotin Hnd']; subst.
  cbn [flat_map]. rewrite heads_from_app, (IH Hnd').
  cbn [PyDict.get]. unfold function_stmts at 1. cbn [fst snd].
  change (heads_from a (?x :: ?l)) with (heads_from a l).
  destruct (String.eqb a k) eqn:E.
  - apply String.eqb_eq in E. subst k. rewrite heads_from_edges_same.
    apply PyDictFacts.contains_false_keys in Hnotin.
    unfold PyDict.contains in Hnotin.
    destruct (PyDict.get a items); [discriminate|]. now rewrite app_nil_r.
  - apply String.eqb_neq in E. rewrite heads_from_edges_other by congruence.
    reflexivity.
Qed.

(** X19.  The edges that leave a function are its recorded calls to
    defined names, in the order of the calls and with their repetitions:
    calls to names that are no key of the mapping are left out and nothing
    else is. *)
Theorem edges_follow_the_recorded_calls
  (cs : CodeStructure) (a : string) (details : FunctionEntry) :
  PyDict.wf (functions cs) ->
  PyDict.get a (functions cs) = Some details ->
  heads_from a (body (build_dot cs)) =
  filter (fun call => PyDict.contains call (functions cs))
         (calls_or_empty details).
Proof.
  intros Hwf Ha. rewrite build_dot_body, heads_from_app.
  unfold PyDict.items. now rewrite (heads_from_items _ a _ Hwf), Ha.
Qed.

Lemma edges_follow_the_recorded_calls_witness :
  PyDict.wf (functions repeated_call_structure) /\
  heads_from "a" (body (build_dot repeated_call_structure)) = ["b"; "b"].
Proof.
  assert (Hwf : PyDict.wf (functions repeated_call_structure)).
  { repeat constructor; simpl; intuition discriminate. }
  split; [exact Hwf|].
  exact (edges_follow_the_recorded_calls repeated_call_structure "a"
           {| calls := Some ["b"; "b"] |} Hwf eq_refl).
Defined.

(* ================================================================== *)
(** * The "after" diagram                                              *)
(* ================================================================== *)

(** X20.  On any value, [generate_from_dot_string] calls the renderer
    once, with the value wrapped as it is and the path
    [str(Path(output_dir) / filename)].  With a renderer that raises [Exception]s
    only, it returns normally unless the Graphviz executable is missing;
    then the run ends by [sys.exit(1)], which its [except Exception] does
    not take. *)
Theorem after_diagram_returns_or_exits
  (env : Env) (output_dir filename : string) (dot_string : json) :
  (forall g path e, render env g path = Raise e -> is_Exception e = true) ->
  render_calls (events_of (generate_from_dot_string env output_dir dot_string
                             filename))
    = [(SourceObj dot_string, path_join output_dir filename)] /\
  (outcome_of (generate_from_dot_string env output_dir dot_string filename)
     = Ok tt \/
   render env (SourceObj dot_string) (path_join output_dir filename)
     = Raise ExecutableNotFound /\
   outcome_of (generate_from_dot_string env output_dir dot_string filename)
     = Raise (SystemExit 1)).
Proof.
  intros Hexc. split.
  - unfold events_of. rewrite generate_from_dot_string_cases.
    apply render_calls_render_graph.
  - unfold outcome_of.
    rewrite generate_from_dot_string_cases, render_graph_run. cbn zeta.
    destruct (render env _ _) as [[]|e] eqn:E; [now left|].
    destruct (is_ExecutableNotFound e) eqn:Enf.
    + right. destruct e; try discriminate. split; reflexivity.
    + rewrite (Hexc _ _ _ E). now left.
Qed.

Lemma after_diagram_returns_or_exits_witness :
  (forall g path e, render no_graphviz_env g path = Raise e ->
                    is_Exception e = true) /\
  outcome_of (generate_from_dot_string no_graphviz_env "output"
                (JString refactored_dot) "app_after")
    = Raise (SystemExit 1).
Proof.
  assert (Hexc : forall g path e, render no_graphviz_env g path = Raise e ->
                                  is_Exception e = true).
  { intros g path e H. cbn in H. injection H as <-. reflexivity. }
  split; [exact Hexc|].
  destruct (proj2 (after_diagram_returns_or_exits no_graphviz_env "output"
                     "app_after" (JString refactored_dot) Hexc))
    as [H|[_ H]]; [discriminate H | exact H].
Defined.

(* ================================================================== *)
(** * The sample script                                                *)
(* ================================================================== *)

Module LegacyFacts.
Import Legacy.

Lemma user_eqb_eq a b : user_eqb a b = true <-> a = b.
Proof.
  destruct a as [x|], b as [y|]; simpl; try (split; congruence).
  rewrite String.eqb_eq. split; congruence.
Qed.

Lemma user_eqb_refl a : user_eqb a a = true.
Proof. now apply user_eqb_eq. Qed.

Lemma user_eqb_sym a b : user_eqb a b = user_eqb b a.
Proof.
  destruct (user_eqb a b) eqn:E.
  - apply user_eqb_eq in E. subst. now rewrite user_eqb_refl.
  - destruct (user_eqb b a) eqn:E'; [|reflexivity].
    apply user_eqb_eq in E'. subst. now rewrite user_eqb_refl in E.
Qed.

Lemma get_set k k' v d :
  get k' (set k v d) = if user_eqb k' k then Some v else get k' d.
Proof.
  induction d as [|[k0 v0] d IH]; simpl.
  - reflexivity.
  - destruct (user_eqb k k0) eqn:E; simpl.
    + apply user_eqb_eq in E. subst k0. now destruct (user_eqb k' k).
    + rewrite IH. destruct (user_eqb k' k0) eqn:E0; [|reflexivity].
      apply user_eqb_eq in E0. subst k0.
      destruct (user_eqb k' k) eqn:E1; [|reflexivity].
      rewrite user_eqb_sym in E1. congruence.
Qed.

(** ** The aggregation loop *)

Lemma aggregate_record_accepted env d record u v :
  accepted env record = Some (u, v) ->
  exists d',
    aggregate_record env d record = Ok d' /\
    forall k, get k d' =
              if user_eqb k u
              then Some (PrimFloat.add (start_of (get k d)) v)
              else get k d.
Proof.
  unfold accepted, aggregate_record.
  destruct (PyDict.get "user_id" record) as [user_id|]; [|discriminate].
  destruct (PyDict.get "order_value" record) as [field|]; [|discriminate].
  destruct (py_float env field) as [x|e]; [|discriminate].
  intros [= <- <-]. unfold contains.
  destruct (get user_id d) as [t|] eqn:Hget; cbn [negb].
  - rewrite Hget. eexists. split; [reflexivity|]. intros k. rewrite get_set.
    destruct (user_eqb k user_id) eqn:E; [|reflexivity].
    apply user_eqb_eq in E. subst k. now rewrite Hget.
  - rewrite get_set, user_eqb_refl. eexists. split; [reflexivity|].
    intros k. rewrite !get_set.
    destruct (user_eqb k user_id) eqn:E; [|reflexivity].
    apply user_eqb_eq in E. subst k. now rewrite Hget.
Qed.

Lemma aggregate_record_skipped env d record :
  skipped env record = true -> aggregate_record env d record = Ok d.
Proof.
  unfold skipped, aggregate_record.
  destruct (PyDict.get "user_id" record) as [user_id|]; [|discriminate].
  destruct (PyDict.get "order_value" record) as [field|]; [|discriminate].
  destruct (py_float env field) as [x|e]; [discriminate|]. now intros ->.
Qed.

Lemma skipped_not_accepted env record :
  skipped env record = true -> accepted env record = None.
Proof.
  unfold skipped, accepted.
  destruct (PyDict.get "user_id" record) as [user_id|]; [|reflexivity].
  destruct (PyDict.get "order_value" record) as [field|]; [|reflexivity].
  now destruct (py_float env field).
Qed.

Lemma extend_cons total v values :
  extend total (v :: values) =
  extend (Some (PrimFloat.add (start_of total) v)) values.
Proof. destruct values; reflexivity. Qed.

Lemma aggregate_from env records : forall d,
  forallb (passes env) records = true ->
  exists d',
    fold_result (aggregate_record env) records d = Ok d' /\
    forall k, get k d' = extend (get k d) (values_of env k records).
Proof.
  induction records as [|record records IH]; intros d Hpass.
  - exists d. split; reflexivity.
  - cbn [forallb] in Hpass. apply andb_prop in Hpass.
    destruct Hpass as [Hp Hrest]. cbn [fold_result]. unfold passes in Hp.
    destruct (accepted env record) as [[u v]|] eqn:Hacc.
    + destruct (aggregate_record_accepted env d record u v Hacc)
        as (d1 & -> & Hget1).
      cbn [rbind]. destruct (IH d1 Hrest) as (d2 & -> & Hget2).
      exists d2. split; [reflexivity|]. intros k.
      rewrite Hget2, Hget1. unfold values_of. cbn [flat_map]. rewrite Hacc.
      fold (values_of env k records).
      destruct (user_eqb k u); [|reflexivity].
      cbn [app]. now rewrite extend_cons.
    + rewrite (aggregate_record_skipped env d record Hp). cbn [rbind].
      destruct (IH d Hrest) as (d2 & -> & Hget2).
      exists d2. split; [reflexivity|]. intros k. rewrite Hget2.
      unfold values_of. cbn [flat_map]. now rewrite Hacc.
Qed.

(** X21.  When every record has both columns and [float] either accepts
    its value or refuses it with a [ValueError] or [TypeError], the
    aggregation succeeds, and the total of a user is the sum of the
    accepted order values of that user, added in the order of the records
    starting from [0]; a user without an accepted order has no total. *)
Theorem totals_add_the_accepted_orders (env : Env) (records : list Row) :
  forallb (passes env) records = true ->
  exists user_orders,
    aggregate env records = Ok user_orders /\
    forall u, get u user_orders = total_of (values_of env u records).
Proof.
  intros Hpass. destruct (aggregate_from env records [] Hpass) as (d & Hd & Hget).
  exists d. split; [exact Hd|]. intros u. rewrite Hget.
  unfold extend, total_of. now destruct (values_of env u records).
Qed.

Lemma totals_add_the_accepted_orders_witness :
  forallb (passes sample_env) sample_records = true /\
  exists user_orders,
    aggregate sample_env sample_records = Ok user_orders /\
    get (Some "user1") user_orders
      = Some (PrimFloat.add (PrimFloat.add 0 500) 750) /\
    get (Some "user2") user_orders = None.
Proof.
  split; [reflexivity|].
  destruct (totals_add_the_accepted_orders sample_env sample_records eq_refl)
    as (d & Hd & Hget).
  exists d. split; [exact Hd|].
  split; [exact (Hget (Some "user1")) | exact (Hget (Some "user2"))].
Defined.

(** X22.  Records whose order value [float] refuses with a [ValueError]
    or a [TypeError] (a missing field included) are passed over: the
    aggregation gives what it gives on the records without them. *)
Theorem malformed_records_are_passed_over (env : Env) (records : list Row) :
  aggregate env (filter (fun record => negb (skipped env record)) records)
  = aggregate env records.
Proof.
  unfold aggregate. generalize (@nil (UserId * float)) as d.
  induction records as [|record records IH]; intros d; [reflexivity|].
  cbn [filter]. destruct (skipped env record) eqn:E; cbn [negb fold_result].
  - rewrite (aggregate_record_skipped env d record E). cbn [rbind]. apply IH.
  - destruct (aggregate_record env d record); cbn [rbind];
      [apply IH | reflexivity].
Qed.

(** ** Runs of [process_data_monolith] *)

Lemma process_cases env input_file output_file_json output_file_csv :
  process_data_monolith env input_file output_file_json output_file_csv [] =
  match read_records env input_file with
  | Raise e =>
      if is_FileNotFoundError e
      then (Ok tt, [start_line input_file; EvRead input_file;
                    not_found_line input_file])
      else (Raise e, [start_line input_file; EvRead input_file])
  | Ok records =>
      let tr1 := [start_line input_file; EvRead input_file;
                  read_line (length records)] in
      match aggregate env records with
      | Raise e => (Raise e, tr1)
      | Ok user_orders =>
          let report := report_of user_orders in
          let tr2 := (tr1 ++ [aggregated_line; found_line (user_count report);
                              EvWriteJson output_file_json report])%list in
          let csv := csv_step env output_file_csv (high_value_users report) in
          match write_json env output_file_json report with
          | Ok _ =>
              (fst csv,
               (tr2 ++ written_line "JSON" output_file_json :: snd csv)%list)
          | Raise e =>
              if is_IOError e
              then (fst csv,
                    (tr2 ++ write_error_line output_file_json :: snd csv)%list)
              else (Raise e, tr2)
          end
      end
  end.
Proof.
  unfold process_data_monolith, bind, try_except, print, emit, lift, ret.
  cbn [app].
  destruct (read_records env input_file) as [records|e].
  2:{ now destruct (is_FileNotFoundError e). }
  cbn [app]. destruct (aggregate env records) as [user_orders|e]; [|reflexivity].
  cbn zeta. unfold report_of, csv_step. cbn [high_value_users user_count app].
  destruct (write_json env output_file_json _) as [[]|e].
  - destruct (write_csv env output_file_csv _) as [[]|e]; [reflexivity|].
    now destruct (is_IOError e).
  - destruct (is_IOError e); [|reflexivity].
    destruct (write_csv env output_file_csv _) as [[]|e']; [reflexivity|].
    now destruct (is_IOError e').
Qed.

(** X23.  When the input file is missing, the script says so and returns:
    nothing is aggregated and no report is written. *)
Theorem missing_input_writes_no_report
  (env : Env) (input_file output_file_json output_file_csv : string) (e : exn) :
  read_records env input_file = Raise e -> is_FileNotFoundError e = true ->
  outcome_of (process_data_monolith env input_file output_file_json
                output_file_csv) = Ok tt /\
  events_of (process_data_monolith env input_file output_file_json
               output_file_csv)
    = [start_line input_file; EvRead input_file; not_found_line input_file].
Proof.
  intros Hread Hfnf. unfold outcome_of, events_of.
  rewrite process_cases, Hread, Hfnf. split; reflexivity.
Qed.

Lemma missing_input_writes_no_report_witness :
  read_records sample_env "nowhere.csv" = Raise (FileNotFoundError "nowhere.csv") /\
  events_of (process_data_monolith sample_env "nowhere.csv" "report.json"
               "report.csv")
    = [start_line "nowhere.csv"; EvRead "nowhere.csv";
       not_found_line "nowhere.csv"].
Proof.
  split; [reflexivity|].
  exact (proj2 (missing_input_writes_no_report sample_env "nowhere.csv"
                  "report.json" "report.csv" (FileNotFoundError "nowhere.csv")
                  eq_refl eq_refl)).
Defined.

Lemma aggregate_missing_column env (record : Row) (records : list Row) :
  PyDict.get "user_id" record = None \/ PyDict.get "order_value" record = None ->
  exists column, aggregate env (record :: records) = Raise (KeyError column).
Proof.
  unfold aggregate. cbn [fold_result]. unfold aggregate_record.
  intros [H|H].
  - rewrite H. now exists "user_id".
  - rewrite H. destruct (PyDict.get "user_id" record); eexists; reflexivity.
Qed.

(** X24.  A file whose rows lack the [user_id] or the [order_value]
    column is not handled: the [KeyError] of the first record leaves the
    function, also for [order_value], which is read inside the [try] that
    takes [ValueError] and [TypeError] only.  No report is written. *)
Theorem missing_column_leaves_the_function
  (env : Env) (input_file output_file_json output_file_csv : string)
  (record : Row) (records : list Row) :
  read_records env input_file = Ok (record :: records) ->
  PyDict.get "user_id" record = None \/ PyDict.get "order_value" record = None ->
  (exists column,
      outcome_of (process_data_monolith env input_file output_file_json
                    output_file_csv) = Raise (KeyError column)) /\
  events_of (process_data_monolith env input_file output_file_json
               output_file_csv)
    = [start_line input_file; EvRead input_file;
       read_line (S (length records))].
Proof.
  intros Hread Hmissing. unfold outcome_of, events_of.
  rewrite process_cases, Hread. cbn zeta.
  destruct (aggregate_missing_column env record records Hmissing) as [column Hcol].
  split; [exists column|]; now rewrite Hcol.
Qed.

Lemma missing_column_leaves_the_function_witness :
  PyDict.get "user_id" [("order_value", Some "500")] = None /\
  outcome_of (process_data_monolith headless_env "data.csv" "report.json"
                "report.csv") = Raise (KeyError "user_id").
Proof.
  split; [reflexivity|].
  destruct (proj1 (missing_column_leaves_the_function headless_env "data.csv"
                     "report.json" "report.csv"
                     [("order_value", Some "500")] []
                     eq_refl (or_introl eq_refl))) as [column H].
  rewrite H. f_equal. cbv in H. now injection H as <-.
Defined.

(** X25.  Once the totals are there, both reports are attempted on the
    same selection: the JSON report carries the users above the threshold
    and their number, the CSV report a header and one row per such user in
    the same order.  An [IOError] while writing the JSON report is reported
    and does not stop the CSV report; the function then ends as the CSV
    step ends. *)
Theorem json_failure_does_not_stop_the_csv_report
  (env : Env) (input_file output_file_json output_file_csv : string)
  (records : list Row) (user_orders : Totals) (e : exn) :
  read_records env input_file = Ok records ->
  aggregate env records = Ok user_orders ->
  write_json env output_file_json (report_of user_orders) = Raise e ->
  is_IOError e = true ->
  let selected := select_high_value user_orders in
  let csv := csv_step env output_file_csv selected in
  outcome_of (process_data_monolith env input_file output_file_json
                output_file_csv) = fst csv /\
  events_of (process_data_monolith env input_file output_file_json
               output_file_csv)
    = ([start_line input_file; EvRead input_file; read_line (length records);
        aggregated_line; found_line (length selected);
        EvWriteJson output_file_json
          {| high_value_users := selected; user_count := length selected |};
        write_error_line output_file_json] ++ snd csv)%list /\
  In (EvWriteCsv output_file_csv (csv_rows selected)) (snd csv) /\
  length (csv_rows selected) = S (length selected).
Proof.
  intros Hread Hagg Hjson Hio. cbn zeta. unfold outcome_of, events_of.
  rewrite process_cases, Hread. cbn zeta. rewrite Hagg, Hjson, Hio.
  cbn [fst snd high_value_users user_count report_of app].
  split; [reflexivity|]. split; [reflexivity|]. split.
  - unfold csv_step.
    destruct (write_csv env output_file_csv _) as [[]|e'];
      [now left | destruct (is_IOError e'); now left].
  - unfold csv_rows. cbn [length]. now rewrite length_map.
Qed.

Lemma json_failure_does_not_stop_the_csv_report_witness :
  write_json read_only_env "report.json"
    (report_of [(Some "user1", PrimFloat.add (PrimFloat.add 0 500) 750)])
    = Raise (PermissionError "report.json") /\
  outcome_of (process_data_monolith read_only_env "data.csv" "report.json"
                "report.csv") = Ok tt.
Proof.
  split; [reflexivity|].
  exact (proj1 (json_failure_does_not_stop_the_csv_report read_only_env
                  "data.csv" "report.json" "report.csv" sample_records
                  [(Some "user1", PrimFloat.add (PrimFloat.add 0 500) 750)]
                  (PermissionError "report.json")
                  eq_refl eq_refl eq_refl eq_refl)).
Defined.

End LegacyFacts.
